(** * Vulkan bootstrap (blah.cpp): instance, diagnostics channel,
      physical-device selection, logical device, teardown.

    The program is embedded shallowly.  Every call that leaves the program
    (Vulkan, GLFW, libc's strcmp, std::cerr) is recorded as an event; the
    answers of the driver and of the windowing library come from a [Host]
    record.  Member functions of HelloTriangleApplication become
    computations in a small state-and-exception monad that also collects the
    events they emit. *)

From Stdlib Require Import ZArith List String Ascii Bool Lia Permutation.
Import ListNotations.
Local Open Scope string_scope.
Local Open Scope list_scope.
Local Open Scope Z_scope.

(* ================================================================== *)
(** ** Machine integers *)

(** [int]: 32-bit two's complement.  [i++] is taken modulo 2^32, as the
    usual targets compute it; below 2^31 increments it never wraps. *)
Definition int_wrap (x : Z) : Z := (x + 2 ^ 31) mod 2 ^ 32 - 2 ^ 31.

(** Conversion to [uint32_t]. *)
Definition uint32_wrap (x : Z) : Z := x mod 2 ^ 32.

Definition UINT32_MAX : Z := 2 ^ 32 - 1.

(* ================================================================== *)
(** ** Constants of the headers the program includes *)

Definition handle := Z.
Definition VK_NULL_HANDLE : handle := 0.

Definition VkResult := Z.
Definition VK_SUCCESS : VkResult := 0.
Definition VK_ERROR_EXTENSION_NOT_PRESENT : VkResult := -7.

Definition VkBool32 := Z.
Definition VK_FALSE : VkBool32 := 0.

Definition VK_QUEUE_GRAPHICS_BIT : Z := 1.
Definition VK_QUEUE_COMPUTE_BIT : Z := 2.
Definition VK_QUEUE_TRANSFER_BIT : Z := 4.

Definition VK_INSTANCE_CREATE_ENUMERATE_PORTABILITY_BIT_KHR : Z := 1.

Definition VK_EXT_DEBUG_UTILS_EXTENSION_NAME := "VK_EXT_debug_utils".
Definition VK_KHR_PORTABILITY_ENUMERATION_EXTENSION_NAME :=
  "VK_KHR_portability_enumeration".
Definition VK_KHR_GET_PHYSICAL_DEVICE_PROPERTIES_2_EXTENSION_NAME :=
  "VK_KHR_get_physical_device_properties2".
Definition VK_KHR_PORTABILITY_SUBSET_EXTENSION_NAME :=
  "VK_KHR_portability_subset".

Definition VK_DEBUG_UTILS_MESSAGE_SEVERITY_VERBOSE_BIT_EXT : Z := 1.
Definition VK_DEBUG_UTILS_MESSAGE_SEVERITY_WARNING_BIT_EXT : Z := 256.
Definition VK_DEBUG_UTILS_MESSAGE_SEVERITY_ERROR_BIT_EXT : Z := 4096.
Definition VK_DEBUG_UTILS_MESSAGE_TYPE_GENERAL_BIT_EXT : Z := 1.
Definition VK_DEBUG_UTILS_MESSAGE_TYPE_VALIDATION_BIT_EXT : Z := 2.
Definition VK_DEBUG_UTILS_MESSAGE_TYPE_PERFORMANCE_BIT_EXT : Z := 4.

Definition GLFW_CLIENT_API : Z := 139265.
Definition GLFW_NO_API : Z := 0.
Definition GLFW_RESIZABLE : Z := 131075.
Definition GLFW_FALSE : Z := 0.

Definition EXIT_SUCCESS : Z := 0.
Definition EXIT_FAILURE : Z := 1.

(* ================================================================== *)
(** ** Globals of blah.cpp *)

Definition WIDTH : Z := 800.
Definition HEIGHT : Z := 600.

Definition validationLayers : list string := ["VK_LAYER_KHRONOS_validation"].

(* ================================================================== *)
(** ** Structures *)

Record VkLayerProperties := { layerName : string }.

Record VkQueueFamilyProperties := { queueFlags : Z; queueCount : Z }.

Record VkDebugUtilsMessengerCreateInfoEXT :=
  { messageSeverity : Z; messageType : Z }.

Record VkInstanceCreateInfo :=
  { ici_flags : Z;
    ici_enabledExtensionNames : list string;
    ici_enabledLayerNames : list string;
    ici_pNext : option VkDebugUtilsMessengerCreateInfoEXT }.

Record VkDeviceCreateInfo :=
  { dci_queueFamilyIndex : Z;
    dci_queueCount : Z;
    dci_enabledExtensionNames : list string;
    dci_enabledLayerNames : list string }.

Record QueueFamilyIndices := { graphicsFamily : option Z }.

Definition isComplete (q : QueueFamilyIndices) : bool :=
  match graphicsFamily q with Some _ => true | None => false end.

(** The data members of HelloTriangleApplication. *)
Record App :=
  { window : handle;
    instance : handle;
    debugMessenger : handle;
    physicalDevice : handle;
    device : handle;
    graphicsQueue : handle }.

Definition set_window (v : handle) (a : App) : App :=
  {| window := v; instance := instance a; debugMessenger := debugMessenger a;
     physicalDevice := physicalDevice a; device := device a;
     graphicsQueue := graphicsQueue a |}.
Definition set_instance (v : handle) (a : App) : App :=
  {| window := window a; instance := v; debugMessenger := debugMessenger a;
     physicalDevice := physicalDevice a; device := device a;
     graphicsQueue := graphicsQueue a |}.
Definition set_debugMessenger (v : handle) (a : App) : App :=
  {| window := window a; instance := instance a; debugMessenger := v;
     physicalDevice := physicalDevice a; device := device a;
     graphicsQueue := graphicsQueue a |}.
Definition set_physicalDevice (v : handle) (a : App) : App :=
  {| window := window a; instance := instance a;
     debugMessenger := debugMessenger a;
     physicalDevice := v; device := device a;
     graphicsQueue := graphicsQueue a |}.
Definition set_device (v : handle) (a : App) : App :=
  {| window := window a; instance := instance a;
     debugMessenger := debugMessenger a;
     physicalDevice := physicalDevice a; device := v;
     graphicsQueue := graphicsQueue a |}.
Definition set_graphicsQueue (v : handle) (a : App) : App :=
  {| window := window a; instance := instance a;
     debugMessenger := debugMessenger a;
     physicalDevice := physicalDevice a; device := device a;
     graphicsQueue := v |}.

(** Default member initialisation: only [physicalDevice] has an
    initialiser; the other members start with whatever the object's
    storage holds ([indeterminate]). *)
Definition HelloTriangleApplication (indeterminate : App) : App :=
  set_physicalDevice VK_NULL_HANDLE indeterminate.

(* ================================================================== *)
(** ** The host: driver, loader and windowing library *)

(** The answers are fixed for a run.  The lists stand for what the driver
    writes into the arrays the program allocates from the uint32_t counts
    it was given.  The three creating calls are handed a pointer to the
    member that is to receive the handle: the second component of their
    answer is what the driver leaves in that member, the new handle when
    the result is VK_SUCCESS and whatever the driver chooses otherwise.
    Each creating call is made at most once in a run, so a driver that
    leaves the member alone when it fails is the host whose answer
    repeats what the member held. *)
Record Host :=
  { h_window : handle;
    h_glfwExtensions : list string;
    h_shouldClose : nat -> bool;      (* answer to the n-th close query *)
    h_layers : list VkLayerProperties;
    h_vkCreateInstance : VkInstanceCreateInfo -> VkResult * handle;
    h_procAddr : handle -> string -> bool;   (* false: nullptr *)
    h_createMessenger :
      handle -> VkDebugUtilsMessengerCreateInfoEXT -> VkResult * handle;
    h_devices : list handle;
    h_queueFamilies : handle -> list VkQueueFamilyProperties;
    h_vkCreateDevice : handle -> VkDeviceCreateInfo -> VkResult * handle;
    h_deviceQueue : handle -> Z -> Z -> handle }.

(** Calls that cross the program's boundary, in program order. *)
Inductive Event :=
| glfwInit_ev
| glfwWindowHint_ev (hint value : Z)
| glfwCreateWindow_ev (w h : Z) (title : string) (result : handle)
| glfwGetRequiredInstanceExtensions_ev
| glfwWindowShouldClose_ev (win : handle)
| glfwPollEvents_ev
| glfwDestroyWindow_ev (win : handle)
| glfwTerminate_ev
| vkEnumerateInstanceLayerProperties_ev (fill : bool)
| strcmp_ev (s1 s2 : string)
| vkCreateInstance_ev (ci : VkInstanceCreateInfo) (r : VkResult) (h : handle)
| vkGetInstanceProcAddr_ev (inst : handle) (name : string)
| PFN_vkCreateDebugUtilsMessengerEXT_ev
    (inst : handle) (ci : VkDebugUtilsMessengerCreateInfoEXT)
    (r : VkResult) (h : handle)
| PFN_vkDestroyDebugUtilsMessengerEXT_ev (inst messenger : handle)
| vkEnumeratePhysicalDevices_ev (inst : handle) (fill : bool)
| vkGetPhysicalDeviceQueueFamilyProperties_ev (pd : handle) (fill : bool)
| vkCreateDevice_ev (pd : handle) (ci : VkDeviceCreateInfo)
    (r : VkResult) (h : handle)
| vkGetDeviceQueue_ev (dev : handle) (family index : Z)
| vkDestroyDevice_ev (dev : handle)
| vkDestroyInstance_ev (inst : handle)
| cerr_ev (msg : string).

(* ================================================================== *)
(** ** The monad: state, exceptions, emitted events *)

Inductive exn :=
| runtime_error (what_arg : string)
| bad_optional_access.

Definition what (e : exn) : string :=
  match e with
  | runtime_error m => m
  | bad_optional_access => "bad optional access"
  end.

Inductive outcome (A : Type) :=
| Ret (a : A)
| Throw (e : exn)
| Timeout.
Arguments Ret {A} a.
Arguments Throw {A} e.
Arguments Timeout {A}.

Record Res (A : Type) := mkRes { out : outcome A; st : App; evs : list Event }.
Arguments mkRes {A} out st evs.
Arguments out {A} r.
Arguments st {A} r.
Arguments evs {A} r.

Definition M (A : Type) := App -> Res A.

Definition ret {A} (a : A) : M A := fun s => mkRes (Ret a) s [].

Definition bind {A B} (m : M A) (f : A -> M B) : M B :=
  fun s =>
    let r := m s in
    match out r with
    | Ret a => let r' := f a (st r) in mkRes (out r') (st r') (evs r ++ evs r')
    | Throw e => mkRes (Throw e) (st r) (evs r)
    | Timeout => mkRes Timeout (st r) (evs r)
    end.

Definition throw {A} (e : exn) : M A := fun s => mkRes (Throw e) s [].
Definition timeout {A} : M A := fun s => mkRes Timeout s [].
Definition emit (e : Event) : M unit := fun s => mkRes (Ret tt) s [e].
Definition get {A} (f : App -> A) : M A := fun s => mkRes (Ret (f s)) s [].
Definition modify (f : App -> App) : M unit := fun s => mkRes (Ret tt) (f s) [].

(** [try { m } catch (const std::exception& e) { h e }]. *)
Definition try_catch {A} (m : M A) (h : exn -> M A) : M A :=
  fun s =>
    let r := m s in
    match out r with
    | Throw e => let r' := h e (st r) in mkRes (out r') (st r') (evs r ++ evs r')
    | _ => r
    end.

Declare Scope m_scope.
Delimit Scope m_scope with m.
Notation "x <- m ;; k" := (bind m (fun x => k))
  (at level 61, m at next level, right associativity) : m_scope.
Notation "m ;; k" := (bind m (fun _ => k))
  (at level 61, right associativity) : m_scope.
Local Open Scope m_scope.

(** [std::optional<T>::value()]. *)
Definition value {A} (o : option A) : M A :=
  match o with Some a => ret a | None => throw bad_optional_access end.

(** The errors of the bootstrap, as the program throws them. *)
Definition ConfigurationError : exn :=
  runtime_error "validation layers requested, but not available!".
Definition InstanceCreationFailed : exn :=
  runtime_error "failed to create instance!".
Definition ExtensionUnavailable : exn :=
  runtime_error "failed to set up debug messenger!".
Definition NoDeviceFound : exn :=
  runtime_error "failed to find GPUs with Vulkan support!".
Definition NoSuitableDevice : exn :=
  runtime_error "failed to find a suitable GPU!".
Definition DeviceCreationFailed : exn :=
  runtime_error "failed to create logical device!".

(* ================================================================== *)
(** ** libc *)

Definition NUL : ascii := Ascii.zero.
Definition uchar (c : ascii) : Z := Z.of_N (N_of_ascii c).

(** [strcmp]: compares unsigned chars up to and including the first
    terminator.  A [string] stands for the bytes of a buffer; its end
    is read as the terminating NUL. *)
Fixpoint strcmp (s1 s2 : string) : Z :=
  match s1, s2 with
  | EmptyString, EmptyString => 0
  | EmptyString, String c2 _ => uchar NUL - uchar c2
  | String c1 _, EmptyString => uchar c1 - uchar NUL
  | String c1 r1, String c2 r2 =>
      if Ascii.eqb c1 c2
      then (if Ascii.eqb c1 NUL then 0 else strcmp r1 r2)
      else uchar c1 - uchar c2
  end.

(** The C string a buffer denotes: its bytes before the first NUL. *)
Fixpoint cstr (s : string) : string :=
  match s with
  | EmptyString => EmptyString
  | String c r => if Ascii.eqb c NUL then EmptyString else String c (cstr r)
  end.

(* ================================================================== *)
(** ** The program *)

Section Program.

Variable host : Host.

(** [enableValidationLayers]: [false] when compiled with NDEBUG,
    [true] otherwise. *)
Variable enableValidationLayers : bool.

(** Look-up proxy used by [setupDebugMessenger]; the out-parameter is
    the [debugMessenger] member at its only call site.  The resolved
    function is handed that pointer: after the call the member holds what
    the function left there, whatever its result. *)
Definition CreateDebugUtilsMessengerEXT
    (inst : handle) (pCreateInfo : VkDebugUtilsMessengerCreateInfoEXT)
    : M VkResult :=
  emit (vkGetInstanceProcAddr_ev inst "vkCreateDebugUtilsMessengerEXT");;
  if h_procAddr host inst "vkCreateDebugUtilsMessengerEXT"
  then
    let rh := h_createMessenger host inst pCreateInfo in
    emit (PFN_vkCreateDebugUtilsMessengerEXT_ev
            inst pCreateInfo (fst rh) (snd rh));;
    modify (set_debugMessenger (snd rh));;
    ret (fst rh)
  else ret VK_ERROR_EXTENSION_NOT_PRESENT.

(** Proxy used by [cleanup]. *)
Definition DestroyDebugUtilsMessengerEXT (inst messenger : handle)
    : M unit :=
  emit (vkGetInstanceProcAddr_ev inst "vkDestroyDebugUtilsMessengerEXT");;
  if h_procAddr host inst "vkDestroyDebugUtilsMessengerEXT"
  then emit (PFN_vkDestroyDebugUtilsMessengerEXT_ev inst messenger)
  else ret tt.

Definition initWindow : M unit :=
  emit glfwInit_ev;;
  emit (glfwWindowHint_ev GLFW_CLIENT_API GLFW_NO_API);;
  emit (glfwWindowHint_ev GLFW_RESIZABLE GLFW_FALSE);;
  emit (glfwCreateWindow_ev WIDTH HEIGHT "Vulkan" (h_window host));;
  modify (set_window (h_window host)).

(** [while (!glfwWindowShouldClose(window)) glfwPollEvents();]
    [n] counts the close queries already made. *)
Fixpoint mainLoop_from (fuel n : nat) : M unit :=
  match fuel with
  | O => timeout
  | S fuel' =>
      w <- get window;;
      emit (glfwWindowShouldClose_ev w);;
      if h_shouldClose host n
      then ret tt
      else emit glfwPollEvents_ev;; mainLoop_from fuel' (S n)
  end.

Definition mainLoop (fuel : nat) : M unit := mainLoop_from fuel O.

Definition cleanup : M unit :=
  dev <- get device;;
  emit (vkDestroyDevice_ev dev);;
  (if enableValidationLayers
   then inst <- get instance;;
        messenger <- get debugMessenger;;
        DestroyDebugUtilsMessengerEXT inst messenger
   else ret tt);;
  inst <- get instance;;
  emit (vkDestroyInstance_ev inst);;
  w <- get window;;
  emit (glfwDestroyWindow_ev w);;
  emit glfwTerminate_ev.

(** Inner loop of [checkValidationLayerSupport]: the value of
    [layerFound] when the loop is left. *)
Fixpoint find_layer (name : string) (availableLayers : list VkLayerProperties)
    : M bool :=
  match availableLayers with
  | [] => ret false
  | layerProperties :: rest =>
      emit (strcmp_ev name (layerName layerProperties));;
      if strcmp name (layerName layerProperties) =? 0
      then ret true
      else find_layer name rest
  end.

(** Outer loop of [checkValidationLayerSupport]. *)
Fixpoint layers_loop (layers : list string)
    (availableLayers : list VkLayerProperties) : M bool :=
  match layers with
  | [] => ret true
  | name :: rest =>
      layerFound <- find_layer name availableLayers;;
      if negb layerFound
      then ret false
      else layers_loop rest availableLayers
  end.

(** The body of [checkValidationLayerSupport] with the global it reads
    as an argument. *)
Definition checkLayerSupport (requested : list string) : M bool :=
  emit (vkEnumerateInstanceLayerProperties_ev false);;
  emit (vkEnumerateInstanceLayerProperties_ev true);;
  layers_loop requested (h_layers host).

Definition checkValidationLayerSupport : M bool :=
  checkLayerSupport validationLayers.

Definition getRequiredExtensions : M (list string) :=
  emit glfwGetRequiredInstanceExtensions_ev;;
  let extensions := h_glfwExtensions host in
  if enableValidationLayers
  then ret (((extensions
              ++ [VK_EXT_DEBUG_UTILS_EXTENSION_NAME])
              ++ [VK_KHR_PORTABILITY_ENUMERATION_EXTENSION_NAME])
              ++ [VK_KHR_GET_PHYSICAL_DEVICE_PROPERTIES_2_EXTENSION_NAME])
  else ret extensions.

Definition populateDebugMessengerCreateInfo
    : VkDebugUtilsMessengerCreateInfoEXT :=
  {| messageSeverity :=
       Z.lor (Z.lor VK_DEBUG_UTILS_MESSAGE_SEVERITY_VERBOSE_BIT_EXT
                    VK_DEBUG_UTILS_MESSAGE_SEVERITY_WARNING_BIT_EXT)
             VK_DEBUG_UTILS_MESSAGE_SEVERITY_ERROR_BIT_EXT;
     messageType :=
       Z.lor (Z.lor VK_DEBUG_UTILS_MESSAGE_TYPE_GENERAL_BIT_EXT
                    VK_DEBUG_UTILS_MESSAGE_TYPE_VALIDATION_BIT_EXT)
             VK_DEBUG_UTILS_MESSAGE_TYPE_PERFORMANCE_BIT_EXT |}.

Definition debugCallback (pMessage : string) : M VkBool32 :=
  emit (cerr_ev ("validation layer: " ++ pMessage)%string);;
  ret VK_FALSE.

Definition createInstance : M unit :=
  unavailable <-
    (if enableValidationLayers
     then supported <- checkValidationLayerSupport;; ret (negb supported)
     else ret false);;
  (if (unavailable : bool) then throw ConfigurationError else ret tt);;
  extensions <- getRequiredExtensions;;
  let createInfo :=
    {| ici_flags := VK_INSTANCE_CREATE_ENUMERATE_PORTABILITY_BIT_KHR;
       ici_enabledExtensionNames := extensions;
       ici_enabledLayerNames :=
         if enableValidationLayers then validationLayers else [];
       ici_pNext :=
         if enableValidationLayers
         then Some populateDebugMessengerCreateInfo else None |} in
  let rh := h_vkCreateInstance host createInfo in
  emit (vkCreateInstance_ev createInfo (fst rh) (snd rh));;
  modify (set_instance (snd rh));;
  if fst rh =? VK_SUCCESS
  then ret tt
  else throw InstanceCreationFailed.

Definition setupDebugMessenger : M unit :=
  if negb enableValidationLayers then ret tt
  else
    inst <- get instance;;
    r <- CreateDebugUtilsMessengerEXT inst populateDebugMessengerCreateInfo;;
    if r =? VK_SUCCESS then ret tt else throw ExtensionUnavailable.

(** The loop of [findQueueFamilies].  The third component is the part
    of the table the iteration has not reached when the loop is left. *)
Fixpoint scanQueueFamilies (queueFamilies : list VkQueueFamilyProperties)
    (indices : QueueFamilyIndices) (i : Z)
    : QueueFamilyIndices * Z * list VkQueueFamilyProperties :=
  match queueFamilies with
  | [] => (indices, i, [])
  | queueFamily :: rest =>
      let indices :=
        if negb (Z.land (queueFlags queueFamily) VK_QUEUE_GRAPHICS_BIT =? 0)
        then {| graphicsFamily := Some (uint32_wrap i) |}
        else indices in
      if isComplete indices
      then (indices, i, rest)
      else scanQueueFamilies rest indices (int_wrap (i + 1))
  end.

Definition findQueueFamilies (dev : handle) : M QueueFamilyIndices :=
  emit (vkGetPhysicalDeviceQueueFamilyProperties_ev dev false);;
  emit (vkGetPhysicalDeviceQueueFamilyProperties_ev dev true);;
  let queueFamilies := h_queueFamilies host dev in
  ret (fst (fst (scanQueueFamilies queueFamilies
                   {| graphicsFamily := None |} 0))).

Definition isDeviceSuitable (dev : handle) : M bool :=
  indices <- findQueueFamilies dev;;
  ret (isComplete indices).

(** The selection loop of [pickPhysicalDevice]. *)
Fixpoint pick_loop (devices : list handle) : M unit :=
  match devices with
  | [] => ret tt
  | dev :: rest =>
      suitable <- isDeviceSuitable dev;;
      if (suitable : bool)
      then modify (set_physicalDevice dev)
      else pick_loop rest
  end.

Definition pickPhysicalDevice : M unit :=
  inst <- get instance;;
  emit (vkEnumeratePhysicalDevices_ev inst false);;
  let deviceCount := Z.of_nat (List.length (h_devices host)) in
  if deviceCount =? 0 then throw NoDeviceFound
  else
    emit (vkEnumeratePhysicalDevices_ev inst true);;
    let devices := h_devices host in
    pick_loop devices;;
    pd <- get physicalDevice;;
    if pd =? VK_NULL_HANDLE then throw NoSuitableDevice else ret tt.

Definition createLogicalDevice : M unit :=
  pd <- get physicalDevice;;
  indices <- findQueueFamilies pd;;
  family <- value (graphicsFamily indices);;
  let deviceExtensions :=
    if enableValidationLayers
    then [VK_KHR_PORTABILITY_SUBSET_EXTENSION_NAME] else [] in
  let createInfo :=
    {| dci_queueFamilyIndex := family;
       dci_queueCount := 1;
       dci_enabledExtensionNames := deviceExtensions;
       dci_enabledLayerNames :=
         if enableValidationLayers then validationLayers else [] |} in
  let rh := h_vkCreateDevice host pd createInfo in
  emit (vkCreateDevice_ev pd createInfo (fst rh) (snd rh));;
  modify (set_device (snd rh));;
  (if fst rh =? VK_SUCCESS
   then ret tt
   else throw DeviceCreationFailed);;
  dev <- get device;;
  family' <- value (graphicsFamily indices);;
  emit (vkGetDeviceQueue_ev dev family' 0);;
  modify (set_graphicsQueue (h_deviceQueue host dev family' 0)).

Definition initVulkan : M unit :=
  createInstance;;
  setupDebugMessenger;;
  pickPhysicalDevice;;
  createLogicalDevice.

Definition run (fuel : nat) : M unit :=
  initWindow;;
  initVulkan;;
  mainLoop fuel;;
  cleanup.

(** [main]: the object's storage before construction is
    [indeterminate]; the result is the exit code. *)
Definition main (fuel : nat) (indeterminate : App) : Res Z :=
  try_catch
    (run fuel;; ret EXIT_SUCCESS)
    (fun e => emit (cerr_ev (what e));; ret EXIT_FAILURE)
    (HelloTriangleApplication indeterminate).

End Program.

(* ================================================================== *)
(** ** Owned resources and their lifetimes, read off the events *)

Inductive Resource :=
| RGlfw
| RWindow (h : handle)
| RInstance (h : handle)
| RMessenger (h : handle)
| RDevice (h : handle).

Definition Resource_eqb (a b : Resource) : bool :=
  match a, b with
  | RGlfw, RGlfw => true
  | RWindow x, RWindow y => x =? y
  | RInstance x, RInstance y => x =? y
  | RMessenger x, RMessenger y => x =? y
  | RDevice x, RDevice y => x =? y
  | _, _ => false
  end.

(** The resource a call hands to the program, if any. *)
Definition acquired (e : Event) : option Resource :=
  match e with
  | glfwInit_ev => Some RGlfw
  | glfwCreateWindow_ev _ _ _ h => Some (RWindow h)
  | vkCreateInstance_ev _ r h =>
      if r =? VK_SUCCESS then Some (RInstance h) else None
  | PFN_vkCreateDebugUtilsMessengerEXT_ev _ _ r h =>
      if r =? VK_SUCCESS then Some (RMessenger h) else None
  | vkCreateDevice_ev _ _ r h =>
      if r =? VK_SUCCESS then Some (RDevice h) else None
  | _ => None
  end.

(** The resource a call gives back, if any. *)
Definition released (e : Event) : option Resource :=
  match e with
  | vkDestroyDevice_ev h => Some (RDevice h)
  | PFN_vkDestroyDebugUtilsMessengerEXT_ev _ m => Some (RMessenger m)
  | vkDestroyInstance_ev h => Some (RInstance h)
  | glfwDestroyWindow_ev w => Some (RWindow w)
  | glfwTerminate_ev => Some RGlfw
  | _ => None
  end.

(** The kinds of resource the program creates. *)
Inductive Kind := KGlfw | KWindow | KInstance | KMessenger | KDevice.

(** The kind of resource a call tries to create, whether or not the call
    succeeds. *)
Definition creation_kind (e : Event) : option Kind :=
  match e with
  | glfwInit_ev => Some KGlfw
  | glfwCreateWindow_ev _ _ _ _ => Some KWindow
  | vkCreateInstance_ev _ _ _ => Some KInstance
  | PFN_vkCreateDebugUtilsMessengerEXT_ev _ _ _ _ => Some KMessenger
  | vkCreateDevice_ev _ _ _ _ => Some KDevice
  | _ => None
  end.

Fixpoint collect {A B} (f : A -> option B) (l : list A) : list B :=
  match l with
  | [] => []
  | a :: r =>
      match f a with
      | Some b => b :: collect f r
      | None => collect f r
      end
  end.

Definition acquisitions (t : list Event) : list Resource :=
  collect acquired t.
Definition releases (t : list Event) : list Resource :=
  collect released t.
Definition attempts (t : list Event) : list Kind :=
  collect creation_kind t.

(** Stack discipline: every release gives back the most recently acquired
    resource still held.  [Some live] is the stack left at the end. *)
Fixpoint lifo (t : list Event) (live : list Resource)
    : option (list Resource) :=
  match t with
  | [] => Some live
  | e :: t' =>
      match acquired e, released e with
      | Some r, _ => lifo t' (r :: live)
      | None, Some r =>
          match live with
          | top :: below =>
              if Resource_eqb r top then lifo t' below else None
          | [] => None
          end
      | None, None => lifo t' live
      end
  end.

(** Every lifetime is nested in the lifetime of the resources acquired
    before it, and nothing is left alive. *)
Definition lifetimes_nested (t : list Event) : bool :=
  match lifo t [] with
  | Some [] => true
  | _ => false
  end.

(* ================================================================== *)
(** ** Sample hosts *)

Definition compute_family : VkQueueFamilyProperties :=
  {| queueFlags := VK_QUEUE_COMPUTE_BIT; queueCount := 1 |}.
Definition graphics_family : VkQueueFamilyProperties :=
  {| queueFlags := Z.lor VK_QUEUE_GRAPHICS_BIT VK_QUEUE_TRANSFER_BIT;
     queueCount := 1 |}.

(** Three accelerators 11, 12, 13: the first has no graphics family, the
    second has table [compute, graphics, graphics], the third is all
    graphics.  The window closes at the third query. *)
Definition sample_host : Host :=
  {| h_window := 5;
     h_glfwExtensions := ["VK_KHR_surface"; "VK_EXT_metal_surface"];
     h_shouldClose := fun n => Nat.leb 2 n;
     h_layers := [ {| layerName := "VK_LAYER_LUNARG_api_dump" |};
                   {| layerName := "VK_LAYER_KHRONOS_validation" |} ];
     h_vkCreateInstance := fun _ => (VK_SUCCESS, 7);
     h_procAddr := fun _ _ => true;
     h_createMessenger := fun _ _ => (VK_SUCCESS, 9);
     h_devices := [11; 12; 13];
     h_queueFamilies := fun d =>
       if d =? 11 then [compute_family]
       else if d =? 12 then [compute_family; graphics_family; graphics_family]
       else [graphics_family];
     h_vkCreateDevice := fun _ _ => (VK_SUCCESS, 21);
     h_deviceQueue := fun _ _ _ => 23 |}.

Definition with_layers (l : list VkLayerProperties) (h : Host) : Host :=
  {| h_window := h_window h;
     h_glfwExtensions := h_glfwExtensions h;
     h_shouldClose := h_shouldClose h;
     h_layers := l;
     h_vkCreateInstance := h_vkCreateInstance h;
     h_procAddr := h_procAddr h;
     h_createMessenger := h_createMessenger h;
     h_devices := h_devices h;
     h_queueFamilies := h_queueFamilies h;
     h_vkCreateDevice := h_vkCreateDevice h;
     h_deviceQueue := h_deviceQueue h |}.

Definition with_devices (l : list handle) (h : Host) : Host :=
  {| h_window := h_window h;
     h_glfwExtensions := h_glfwExtensions h;
     h_shouldClose := h_shouldClose h;
     h_layers := h_layers h;
     h_vkCreateInstance := h_vkCreateInstance h;
     h_procAddr := h_procAddr h;
     h_createMessenger := h_createMessenger h;
     h_devices := l;
     h_queueFamilies := h_queueFamilies h;
     h_vkCreateDevice := h_vkCreateDevice h;
     h_deviceQueue := h_deviceQueue h |}.

Definition with_procAddr (f : handle -> string -> bool) (h : Host) : Host :=
  {| h_window := h_window h;
     h_glfwExtensions := h_glfwExtensions h;
     h_shouldClose := h_shouldClose h;
     h_layers := h_layers h;
     h_vkCreateInstance := h_vkCreateInstance h;
     h_procAddr := f;
     h_createMessenger := h_createMessenger h;
     h_devices := h_devices h;
     h_queueFamilies := h_queueFamilies h;
     h_vkCreateDevice := h_vkCreateDevice h;
     h_deviceQueue := h_deviceQueue h |}.

(** The same host with other result codes for the three creating calls. *)
Definition with_results (ri rm rd : VkResult) (h : Host) : Host :=
  {| h_window := h_window h;
     h_glfwExtensions := h_glfwExtensions h;
     h_shouldClose := h_shouldClose h;
     h_layers := h_layers h;
     h_vkCreateInstance := fun ci => (ri, snd (h_vkCreateInstance h ci));
     h_procAddr := h_procAddr h;
     h_createMessenger :=
       fun inst ci => (rm, snd (h_createMessenger h inst ci));
     h_devices := h_devices h;
     h_queueFamilies := h_queueFamilies h;
     h_vkCreateDevice := fun pd ci => (rd, snd (h_vkCreateDevice h pd ci));
     h_deviceQueue := h_deviceQueue h |}.

(** A loader that resolves the create entry point of the diagnostics
    extension but not its destroy entry point. *)
Definition lopsided_host : Host :=
  with_procAddr
    (fun _ name => String.eqb name "vkCreateDebugUtilsMessengerEXT")
    sample_host.

Definition blank : App :=
  {| window := 0; instance := 0; debugMessenger := 0;
     physicalDevice := 0; device := 0; graphicsQueue := 0 |}.

(* ================================================================== *)
(** ** Vocabulary of the statements *)

(** A family's capability flags include the graphics bit (bit 0). *)
Definition has_graphics (q : VkQueueFamilyProperties) : bool :=
  Z.testbit (queueFlags q) 0.

Definition no_graphics (qs : list VkQueueFamilyProperties) : Prop :=
  Forall (fun q => has_graphics q = false) qs.

Definition empty_indices : QueueFamilyIndices := {| graphicsFamily := None |}.

(** The events [t] followed by the result [r]. *)
Definition emitted {A} (t : list Event) (r : Res A) : Res A :=
  mkRes (out r) (st r) (t ++ evs r).

(** A buffer without an embedded NUL denotes itself. *)
Fixpoint nul_free (s : string) : bool :=
  match s with
  | EmptyString => true
  | String c r => negb (Ascii.eqb c NUL) && nul_free r
  end.

(** A layer of that name is installed on the host: some enumerated layer
    carries exactly the same characters. *)
Definition installed (avail : list VkLayerProperties) (name : string) : Prop :=
  exists lp, In lp avail /\ cstr (layerName lp) = cstr name.

(** The host after the layer [name] has been removed from it. *)
Definition uninstall (name : string) (avail : list VkLayerProperties)
    : list VkLayerProperties :=
  filter (fun lp => negb (String.eqb (cstr (layerName lp)) (cstr name))) avail.

Definition matches (name : string) (lp : VkLayerProperties) : bool :=
  strcmp name (layerName lp) =? 0.

(** What a debug build appends to the windowing library's list. *)
Definition diagnostics_extensions : list string :=
  [VK_EXT_DEBUG_UTILS_EXTENSION_NAME;
   VK_KHR_PORTABILITY_ENUMERATION_EXTENSION_NAME;
   VK_KHR_GET_PHYSICAL_DEVICE_PROPERTIES_2_EXTENSION_NAME].

(** The device exposes at least one queue family with the graphics bit. *)
Definition suitable (host : Host) (dev : handle) : bool :=
  existsb has_graphics (h_queueFamilies host dev).

Definition none_suitable (host : Host) (devs : list handle) : Prop :=
  Forall (fun d => suitable host d = false) devs.

(** The two driver calls one suitability check makes. *)
Definition queries (dev : handle) : list Event :=
  [vkGetPhysicalDeviceQueueFamilyProperties_ev dev false;
   vkGetPhysicalDeviceQueueFamilyProperties_ev dev true].

Definition enumerations (inst : handle) : list Event :=
  [vkEnumeratePhysicalDevices_ev inst false;
   vkEnumeratePhysicalDevices_ev inst true].

Definition device_create_info (enable : bool) (family : Z)
    : VkDeviceCreateInfo :=
  {| dci_queueFamilyIndex := family;
     dci_queueCount := 1;
     dci_enabledExtensionNames :=
       if enable then [VK_KHR_PORTABILITY_SUBSET_EXTENSION_NAME] else [];
     dci_enabledLayerNames := if enable then validationLayers else [] |}.

(** Calls that try to create a resource. *)
Definition creation_call (e : Event) : bool :=
  match e with
  | glfwInit_ev
  | glfwCreateWindow_ev _ _ _ _
  | vkCreateInstance_ev _ _ _
  | PFN_vkCreateDebugUtilsMessengerEXT_ev _ _ _ _
  | vkCreateDevice_ev _ _ _ _ => true
  | _ => false
  end.

Definition release_call (e : Event) : bool :=
  match released e with Some _ => true | None => false end.

(** The events that create or release something, in order. *)
Definition lifecycle (t : list Event) : list Event :=
  filter (fun e => creation_call e || release_call e) t.

Definition create_name : string := "vkCreateDebugUtilsMessengerEXT".

Definition destroy_name : string := "vkDestroyDebugUtilsMessengerEXT".

Section Vocabulary.

Variable host : Host.
Variable enable : bool.

(** Every requested validation layer is installed. *)
Definition layers_supported : bool :=
  forallb (fun name => existsb (matches name) (h_layers host))
          validationLayers.

Definition check_events (s : App) : list Event :=
  evs (checkValidationLayerSupport host s).

Definition instance_create_info : VkInstanceCreateInfo :=
  {| ici_flags := VK_INSTANCE_CREATE_ENUMERATE_PORTABILITY_BIT_KHR;
     ici_enabledExtensionNames :=
       h_glfwExtensions host
       ++ (if enable then diagnostics_extensions else []);
     ici_enabledLayerNames := if enable then validationLayers else [];
     ici_pNext :=
       if enable then Some populateDebugMessengerCreateInfo else None |}.

Definition window_events : list Event :=
  [glfwInit_ev;
   glfwWindowHint_ev GLFW_CLIENT_API GLFW_NO_API;
   glfwWindowHint_ev GLFW_RESIZABLE GLFW_FALSE;
   glfwCreateWindow_ev WIDTH HEIGHT "Vulkan" (h_window host)].

(** The events of createInstance that precede vkCreateInstance. *)
Definition instance_preamble (s : App) : list Event :=
  (if enable then check_events s else [])
  ++ [glfwGetRequiredInstanceExtensions_ev].

Definition opened : list Event :=
  [glfwInit_ev; glfwCreateWindow_ev WIDTH HEIGHT "Vulkan" (h_window host)].

Definition diag_created (hi hm : handle) : list Event :=
  if enable
  then [PFN_vkCreateDebugUtilsMessengerEXT_ev
          hi populateDebugMessengerCreateInfo VK_SUCCESS hm]
  else [].

Definition diag_destroyed (hi hm : handle) : list Event :=
  if enable
  then if h_procAddr host hi destroy_name
       then [PFN_vkDestroyDebugUtilsMessengerEXT_ev hi hm] else []
  else [].

Definition booted (ci : VkInstanceCreateInfo) (hi hm : handle)
    : list Event :=
  opened ++ [vkCreateInstance_ev ci VK_SUCCESS hi] ++ diag_created hi hm.

Definition torn_down (hi hm hd : handle) : list Event :=
  [vkDestroyDevice_ev hd] ++ diag_destroyed hi hm
  ++ [vkDestroyInstance_ev hi; glfwDestroyWindow_ev (h_window host);
      glfwTerminate_ev].

(** The ways [run] can end, each with the creating and releasing calls
    it has made by then. *)
Inductive run_shape : outcome unit -> list Event -> Prop :=
| shape_layers :
    enable = true -> layers_supported = false ->
    run_shape (Throw ConfigurationError) opened
| shape_instance ci r hi :
    r <> VK_SUCCESS ->
    run_shape (Throw InstanceCreationFailed)
              (opened ++ [vkCreateInstance_ev ci r hi])
| shape_unresolved ci hi :
    enable = true -> h_procAddr host hi create_name = false ->
    run_shape (Throw ExtensionUnavailable)
              (opened ++ [vkCreateInstance_ev ci VK_SUCCESS hi])
| shape_messenger ci hi r hm :
    enable = true -> r <> VK_SUCCESS ->
    run_shape (Throw ExtensionUnavailable)
              (opened
               ++ [vkCreateInstance_ev ci VK_SUCCESS hi;
                   PFN_vkCreateDebugUtilsMessengerEXT_ev
                     hi populateDebugMessengerCreateInfo r hm])
| shape_no_device ci hi hm :
    run_shape (Throw NoDeviceFound) (booted ci hi hm)
| shape_no_suitable ci hi hm :
    run_shape (Throw NoSuitableDevice) (booted ci hi hm)
| shape_device ci hi hm pd dci r hd :
    r <> VK_SUCCESS ->
    run_shape (Throw DeviceCreationFailed)
              (booted ci hi hm ++ [vkCreateDevice_ev pd dci r hd])
| shape_timeout ci hi hm pd dci hd :
    run_shape Timeout
              (booted ci hi hm ++ [vkCreateDevice_ev pd dci VK_SUCCESS hd])
| shape_exit ci hi hm pd dci hd :
    (enable = true -> h_procAddr host hi create_name = true) ->
    run_shape (Ret tt)
              (booted ci hi hm
               ++ [vkCreateDevice_ev pd dci VK_SUCCESS hd]
               ++ torn_down hi hm hd).

End Vocabulary.

(** The loader resolves the two entry points of the diagnostics extension
    together: on an instance where it finds the create function it finds
    the destroy function too. *)
Definition coherent_loader (host : Host) : Prop :=
  forall inst,
    h_procAddr host inst create_name = true ->
    h_procAddr host inst destroy_name = true.

Definition bootstrap_errors : list exn :=
  [ConfigurationError; InstanceCreationFailed; ExtensionUnavailable;
   NoDeviceFound; NoSuitableDevice; DeviceCreationFailed].

(* ================================================================== *)
(** ** Vocabulary of the further properties *)

(** The stage of [run] a call belongs to: 0 initWindow, 1 createInstance,
    2 setupDebugMessenger, 3 pickPhysicalDevice and the queue-family
    queries, 4 the device creation of createLogicalDevice, 5 mainLoop,
    6 cleanup, 7 the handler of [main]. *)
Definition phase (e : Event) : nat :=
  match e with
  | glfwInit_ev | glfwWindowHint_ev _ _ | glfwCreateWindow_ev _ _ _ _ => 0
  | vkEnumerateInstanceLayerProperties_ev _ | strcmp_ev _ _
  | glfwGetRequiredInstanceExtensions_ev | vkCreateInstance_ev _ _ _ => 1
  | vkGetInstanceProcAddr_ev _ name =>
      if String.eqb name create_name then 2 else 6
  | PFN_vkCreateDebugUtilsMessengerEXT_ev _ _ _ _ => 2
  | vkEnumeratePhysicalDevices_ev _ _
  | vkGetPhysicalDeviceQueueFamilyProperties_ev _ _ => 3
  | vkCreateDevice_ev _ _ _ _ | vkGetDeviceQueue_ev _ _ _ => 4
  | glfwWindowShouldClose_ev _ | glfwPollEvents_ev => 5
  | vkDestroyDevice_ev _ | PFN_vkDestroyDebugUtilsMessengerEXT_ev _ _
  | vkDestroyInstance_ev _ | glfwDestroyWindow_ev _ | glfwTerminate_ev => 6
  | cerr_ev _ => 7
  end%nat.

Definition exn_eqb (a b : exn) : bool :=
  match a, b with
  | runtime_error x, runtime_error y => String.eqb x y
  | bad_optional_access, bad_optional_access => true
  | _, _ => false
  end.

(** The stage whose code throws the exception. *)
Definition exn_phase (e : exn) : nat :=
  if exn_eqb e ConfigurationError then 1
  else if exn_eqb e InstanceCreationFailed then 1
  else if exn_eqb e ExtensionUnavailable then 2
  else if exn_eqb e NoDeviceFound then 3
  else if exn_eqb e NoSuitableDevice then 3
  else if exn_eqb e DeviceCreationFailed then 4
  else if exn_eqb e bad_optional_access then 4
  else 7.

(** Non-decreasing. *)
Fixpoint ordered (l : list nat) : Prop :=
  match l with
  | [] => True
  | x :: r => Forall (fun y => (x <= y)%nat) r /\ ordered r
  end.

(** Every event the computation emits satisfies [P]. *)
Definition emits {A} (P : Event -> Prop) (m : M A) : Prop :=
  forall s, Forall P (evs (m s)).

(** Every exception the computation ends with satisfies [Q]. *)
Definition throws {A} (Q : exn -> Prop) (m : M A) : Prop :=
  forall s e, out (m s) = Throw e -> Q e.

(** The computation leaves the member [f] of the object as it was. *)
Definition keeps {A B} (f : App -> B) (m : M A) : Prop :=
  forall s, f (st (m s)) = f s.

(** All calls and the exception, if any, belong to stage [k]. *)
Definition only {A} (k : nat) (m : M A) : Prop :=
  emits (fun e => phase e = k) m /\ throws (fun e => exn_phase e = k) m.

(** The calls run through the stages [lo .. hi] in order; an exception
    comes from one of these stages, after which no later stage's call is
    made. *)
Definition staged {A} (lo hi : nat) (m : M A) : Prop :=
  forall s,
    ordered (map phase (evs (m s)))
    /\ Forall (fun e => (lo <= phase e <= hi)%nat) (evs (m s))
    /\ (forall e, out (m s) = Throw e ->
          (lo <= exn_phase e <= hi)%nat
          /\ Forall (fun ev => (phase ev <= exn_phase e)%nat) (evs (m s))).

(** Calls that exist only for the diagnostics channel. *)
Definition diagnostics_event (e : Event) : bool :=
  match e with
  | vkEnumerateInstanceLayerProperties_ev _ | strcmp_ev _ _
  | vkGetInstanceProcAddr_ev _ _
  | PFN_vkCreateDebugUtilsMessengerEXT_ev _ _ _ _
  | PFN_vkDestroyDebugUtilsMessengerEXT_ev _ _ => true
  | _ => false
  end.

(** The calls of an idle phase that sees the close signal at its
    [k]-th query (counting from 0). *)
Definition idle_events (w : handle) (k : nat) : list Event :=
  List.concat (repeat [glfwWindowShouldClose_ev w; glfwPollEvents_ev] k)
  ++ [glfwWindowShouldClose_ev w].

(** The close signal comes at query [k] and at no earlier query. *)
Definition first_close (host : Host) (k : nat) : Prop :=
  h_shouldClose host k = true
  /\ forall j, (j < k)%nat -> h_shouldClose host j = false.

(** The calls of [k] rounds of the idle loop that did not see the signal. *)
Definition polls (w : handle) (k : nat) : list Event :=
  List.concat (repeat [glfwWindowShouldClose_ev w; glfwPollEvents_ev] k).

(** Not a diagnostics call. *)
Definition quiet (e : Event) : Prop := diagnostics_event e = false.

(* ================================================================== *)
(** ** Machine arithmetic *)

Lemma int_wrap_succ (x : Z) : int_wrap (int_wrap x + 1) = int_wrap (x + 1).
Proof.
  unfold int_wrap.
  replace ((x + 2 ^ 31) mod 2 ^ 32 - 2 ^ 31 + 1 + 2 ^ 31)
    with ((x + 2 ^ 31) mod 2 ^ 32 + 1) by lia.
  rewrite Z.add_mod_idemp_l by lia.
  replace (x + 2 ^ 31 + 1) with (x + 1 + 2 ^ 31) by lia.
  reflexivity.
Qed.

Lemma uint32_of_int_wrap (x : Z) :
  0 <= x <= UINT32_MAX -> uint32_wrap (int_wrap x) = x.
Proof.
  unfold uint32_wrap, int_wrap, UINT32_MAX. intros Hx.
  rewrite Zminus_mod_idemp_l.
  replace (x + 2 ^ 31 - 2 ^ 31) with x by lia.
  apply Z.mod_small. lia.
Qed.

Lemma int_wrap_0 : int_wrap 0 = 0.
Proof. reflexivity. Qed.

(* ================================================================== *)
(** ** Queue-family scan *)

Lemma graphics_test (q : VkQueueFamilyProperties) :
  negb (Z.land (queueFlags q) VK_QUEUE_GRAPHICS_BIT =? 0) = has_graphics q.
Proof.
  unfold has_graphics, VK_QUEUE_GRAPHICS_BIT.
  change 1 with (Z.ones 1).
  rewrite Z.land_ones by lia.
  change (2 ^ 1) with 2.
  rewrite <- Z.bit0_mod.
  destruct (Z.testbit (queueFlags q) 0); reflexivity.
Qed.

Lemma scan_cons_miss q rest i :
  has_graphics q = false ->
  scanQueueFamilies (q :: rest) empty_indices i
  = scanQueueFamilies rest empty_indices (int_wrap (i + 1)).
Proof.
  intros Hq. cbn [scanQueueFamilies].
  rewrite graphics_test, Hq. reflexivity.
Qed.

Lemma scan_cons_hit q rest i :
  has_graphics q = true ->
  scanQueueFamilies (q :: rest) empty_indices i
  = ({| graphicsFamily := Some (uint32_wrap i) |}, i, rest).
Proof.
  intros Hq. cbn [scanQueueFamilies].
  rewrite graphics_test, Hq. reflexivity.
Qed.

(** Families without the graphics bit are stepped over, one counter
    increment each. *)
Lemma scan_skip pre : forall rest p,
  no_graphics pre ->
  scanQueueFamilies (pre ++ rest) empty_indices (int_wrap p)
  = scanQueueFamilies rest empty_indices
      (int_wrap (p + Z.of_nat (List.length pre))).
Proof.
  induction pre as [|q pre IH]; intros rest p Hpre.
  - cbn. now rewrite Z.add_0_r.
  - inversion Hpre as [|? ? Hq Hpre']; subst.
    cbn [app]. rewrite scan_cons_miss by exact Hq.
    rewrite int_wrap_succ, IH by exact Hpre'.
    f_equal. f_equal. cbn [List.length]. lia.
Qed.

Lemma scan_first_match pre g post :
  no_graphics pre -> has_graphics g = true ->
  Z.of_nat (List.length (pre ++ g :: post)) <= UINT32_MAX ->
  scanQueueFamilies (pre ++ g :: post) empty_indices 0
  = ({| graphicsFamily := Some (Z.of_nat (List.length pre)) |},
     int_wrap (Z.of_nat (List.length pre)), post).
Proof.
  intros Hpre Hg Hlen.
  rewrite <- int_wrap_0 at 1.
  rewrite scan_skip by exact Hpre.
  rewrite scan_cons_hit by exact Hg.
  rewrite Z.add_0_l, uint32_of_int_wrap; [reflexivity|].
  rewrite length_app in Hlen. cbn [List.length] in Hlen. lia.
Qed.

Lemma scan_no_match qs : forall i,
  no_graphics qs ->
  exists j, scanQueueFamilies qs empty_indices i = (empty_indices, j, []).
Proof.
  induction qs as [|q qs IH]; intros i Hqs.
  - exists i. reflexivity.
  - inversion Hqs as [|? ? Hq Hqs']; subst.
    rewrite scan_cons_miss by exact Hq.
    apply IH. exact Hqs'.
Qed.

(** Every table either has no graphics family or splits at its first one. *)
Lemma first_graphics_split (qs : list VkQueueFamilyProperties) :
  no_graphics qs
  \/ exists pre g post,
       qs = pre ++ g :: post /\ no_graphics pre /\ has_graphics g = true.
Proof.
  induction qs as [|q qs IH].
  - left. constructor.
  - destruct (has_graphics q) eqn:Hq.
    + right. exists [], q, qs. repeat split; [constructor | exact Hq].
    + destruct IH as [Hn | (pre & g & post & -> & Hpre & Hg)].
      * left. constructor; assumption.
      * right. exists (q :: pre), g, post.
        repeat split; [constructor; assumption | exact Hg].
Qed.

Lemma scan_complete_iff qs i :
  isComplete (fst (fst (scanQueueFamilies qs empty_indices i)))
  = existsb has_graphics qs.
Proof.
  revert i. induction qs as [|q qs IH]; intros i.
  - reflexivity.
  - cbn [existsb]. destruct (has_graphics q) eqn:Hq.
    + rewrite scan_cons_hit by exact Hq. reflexivity.
    + rewrite scan_cons_miss by exact Hq. apply IH.
Qed.

(* ================================================================== *)
(** ** Monad steps *)

Lemma bind_Ret {A B} (m : M A) (f : A -> M B) s a :
  out (m s) = Ret a ->
  bind m f s
  = mkRes (out (f a (st (m s)))) (st (f a (st (m s))))
          (evs (m s) ++ evs (f a (st (m s)))).
Proof. intros H. unfold bind. rewrite H. reflexivity. Qed.

Lemma bind_Throw {A B} (m : M A) (f : A -> M B) s e :
  out (m s) = Throw e ->
  bind m f s = mkRes (Throw e) (st (m s)) (evs (m s)).
Proof. intros H. unfold bind. rewrite H. reflexivity. Qed.

Lemma bind_Timeout {A B} (m : M A) (f : A -> M B) s :
  out (m s) = Timeout ->
  bind m f s = mkRes Timeout (st (m s)) (evs (m s)).
Proof. intros H. unfold bind. rewrite H. reflexivity. Qed.

Lemma bind_emit {B} (e : Event) (f : unit -> M B) s :
  bind (emit e) f s
  = mkRes (out (f tt s)) (st (f tt s)) (e :: evs (f tt s)).
Proof. reflexivity. Qed.

Lemma bind_get {A B} (f : App -> A) (k : A -> M B) s :
  bind (get f) k s
  = mkRes (out (k (f s) s)) (st (k (f s) s)) (evs (k (f s) s)).
Proof. reflexivity. Qed.

Lemma emitted_nil {A} (r : Res A) : emitted [] r = r.
Proof. now destruct r. Qed.

Lemma step_Ret {A B} (m : M A) (f : A -> M B) s a s' t :
  m s = mkRes (Ret a) s' t -> bind m f s = emitted t (f a s').
Proof. intros H. unfold bind. rewrite H. reflexivity. Qed.

Lemma step_Throw {A B} (m : M A) (f : A -> M B) s e s' t :
  m s = mkRes (Throw e) s' t -> bind m f s = mkRes (Throw e) s' t.
Proof. intros H. unfold bind. rewrite H. reflexivity. Qed.

Lemma step_Timeout {A B} (m : M A) (f : A -> M B) s s' t :
  m s = mkRes Timeout s' t -> bind m f s = mkRes Timeout s' t.
Proof. intros H. unfold bind. rewrite H. reflexivity. Qed.

Lemma step_get {A B} (g : App -> A) (f : A -> M B) s :
  bind (get g) f s = f (g s) s.
Proof. rewrite (step_Ret _ _ s (g s) s [] eq_refl). apply emitted_nil. Qed.

Lemma step_ret {A B} (a : A) (f : A -> M B) s : bind (ret a) f s = f a s.
Proof. rewrite (step_Ret _ _ s a s [] eq_refl). apply emitted_nil. Qed.

Lemma step_modify {B} (g : App -> App) (f : unit -> M B) s :
  bind (modify g) f s = f tt (g s).
Proof. rewrite (step_Ret _ _ s tt (g s) [] eq_refl). apply emitted_nil. Qed.

Lemma step_emit {B} (e : Event) (f : unit -> M B) s :
  bind (emit e) f s = emitted [e] (f tt s).
Proof. reflexivity. Qed.

Lemma step_throw {A B} (e : exn) (f : A -> M B) s :
  bind (throw e) f s = mkRes (Throw e) s [].
Proof. reflexivity. Qed.

Lemma bind_assoc {A B C} (m : M A) (f : A -> M B) (g : B -> M C) s :
  bind (bind m f) g s = bind m (fun a => bind (f a) g) s.
Proof.
  unfold bind. destruct (m s) as [[a|e|] s1 t1]; cbn [out st evs];
    [|reflexivity|reflexivity].
  destruct (f a s1) as [[b|e|] s2 t2]; cbn [out st evs];
    [|reflexivity|reflexivity].
  now rewrite app_assoc.
Qed.

Ltac msteps :=
  repeat (rewrite bind_assoc || rewrite step_get || rewrite step_ret
          || rewrite step_modify || rewrite step_emit || rewrite step_throw).

Ltac mdone :=
  unfold emitted, ret, throw, emit, modify, get; cbn [out st evs app].

Lemma findQueueFamilies_eq host dev s :
  findQueueFamilies host dev s
  = mkRes (Ret (fst (fst (scanQueueFamilies (h_queueFamilies host dev)
                            empty_indices 0))))
          s
          [vkGetPhysicalDeviceQueueFamilyProperties_ev dev false;
           vkGetPhysicalDeviceQueueFamilyProperties_ev dev true].
Proof. reflexivity. Qed.

(* ================================================================== *)
(** ** findQueueFamilies *)

(** C1.  On a table that has a graphics-capable family, findQueueFamilies
    makes one pass: it returns the position of the first family whose
    flags include the graphics bit and leaves the loop there, so the
    families after that position are never reached.  The table is the one
    the driver reports (its length fits the uint32_t count). *)
Theorem C1_findQueueFamilies_first_match :
  forall (host : Host) (dev : handle) (s : App)
         (pre : list VkQueueFamilyProperties) (g : VkQueueFamilyProperties)
         (post : list VkQueueFamilyProperties),
    h_queueFamilies host dev = pre ++ g :: post ->
    Z.of_nat (List.length (h_queueFamilies host dev)) <= UINT32_MAX ->
    no_graphics pre ->
    has_graphics g = true ->
    out (findQueueFamilies host dev s)
      = Ret {| graphicsFamily := Some (Z.of_nat (List.length pre)) |}
    /\ st (findQueueFamilies host dev s) = s
    /\ evs (findQueueFamilies host dev s)
       = [vkGetPhysicalDeviceQueueFamilyProperties_ev dev false;
          vkGetPhysicalDeviceQueueFamilyProperties_ev dev true]
    /\ snd (scanQueueFamilies (h_queueFamilies host dev) empty_indices 0)
       = post.
Proof.
  intros host dev s pre g post Htab Hlen Hpre Hg.
  rewrite findQueueFamilies_eq. cbn [out st evs].
  rewrite Htab in *.
  rewrite scan_first_match by assumption.
  repeat split.
Qed.

Lemma C1_first_match_witness :
  out (findQueueFamilies sample_host 12 blank)
    = Ret {| graphicsFamily := Some 1 |}
  /\ snd (scanQueueFamilies
            [compute_family; graphics_family; graphics_family]
            empty_indices 0)
     = [graphics_family].
Proof.
  destruct (C1_findQueueFamilies_first_match sample_host 12 blank
              [compute_family] graphics_family [graphics_family])
    as (Hout & _ & _ & Hrest).
  - reflexivity.
  - vm_compute. discriminate.
  - repeat constructor.
  - reflexivity.
  - split; [exact Hout | exact Hrest].
Defined.

(** C10.  Whatever index findQueueFamilies returns lies inside the
    device's queue-family table and names a family with the graphics bit;
    when no family has the bit the holder comes back empty. *)
Theorem C10_findQueueFamilies_index_valid :
  forall (host : Host) (dev : handle) (s : App),
    Z.of_nat (List.length (h_queueFamilies host dev)) <= UINT32_MAX ->
    exists indices,
      out (findQueueFamilies host dev s) = Ret indices
      /\ (forall i, graphicsFamily indices = Some i ->
            0 <= i < Z.of_nat (List.length (h_queueFamilies host dev))
            /\ exists q,
                 nth_error (h_queueFamilies host dev) (Z.to_nat i) = Some q
                 /\ has_graphics q = true)
      /\ (no_graphics (h_queueFamilies host dev) ->
          graphicsFamily indices = None /\ isComplete indices = false).
Proof.
  intros host dev s Hlen.
  rewrite findQueueFamilies_eq. cbn [out].
  eexists. split; [reflexivity|].
  destruct (first_graphics_split (h_queueFamilies host dev))
    as [Hnone | (pre & g & post & Htab & Hpre & Hg)].
  - destruct (scan_no_match _ 0 Hnone) as [j Hj]. rewrite Hj. cbn.
    split; [discriminate | intros _; split; reflexivity].
  - rewrite Htab in *. rewrite scan_first_match by assumption. cbn [fst].
    split.
    + intros i Hi. cbn in Hi. inversion Hi; subst i; clear Hi.
      rewrite length_app. cbn [List.length]. split; [lia|].
      exists g. rewrite Nat2Z.id. split; [|exact Hg].
      rewrite nth_error_app2 by lia.
      now rewrite Nat.sub_diag.
    + intros Hnone. exfalso.
      apply Forall_app in Hnone. destruct Hnone as [_ Hnone].
      inversion Hnone as [|? ? Hg' _]; subst. congruence.
Qed.

Lemma C10_index_valid_witness :
  exists indices,
    out (findQueueFamilies sample_host 12 blank) = Ret indices
    /\ graphicsFamily indices = Some 1
    /\ 0 <= 1 < 3.
Proof.
  destruct (C10_findQueueFamilies_index_valid sample_host 12 blank)
    as (indices & Hout & Hidx & _).
  - vm_compute. discriminate.
  - exists indices. split; [exact Hout|].
    cbn in Hout. inversion Hout; subst indices.
    split; [reflexivity|].
    exact (proj1 (Hidx 1 eq_refl)).
Defined.

(* ================================================================== *)
(** ** strcmp and C strings *)

Lemma uchar_inj (a b : ascii) : uchar a = uchar b -> a = b.
Proof.
  unfold uchar. intros H. apply N2Z.inj in H.
  rewrite <- (ascii_N_embedding a), <- (ascii_N_embedding b).
  now rewrite H.
Qed.

Lemma strcmp_zero_iff (s1 : string) : forall s2,
  strcmp s1 s2 = 0 <-> cstr s1 = cstr s2.
Proof.
  induction s1 as [|c1 r1 IH]; intros [|c2 r2]; cbn [strcmp cstr].
  - tauto.
  - destruct (Ascii.eqb_spec c2 NUL) as [->|Hc].
    + split; reflexivity.
    + split; [|discriminate]. intros H. exfalso. apply Hc.
      apply uchar_inj. lia.
  - destruct (Ascii.eqb_spec c1 NUL) as [->|Hc].
    + split; reflexivity.
    + split; [|discriminate]. intros H. exfalso. apply Hc.
      apply uchar_inj. lia.
  - destruct (Ascii.eqb_spec c1 c2) as [->|Hne].
    + destruct (Ascii.eqb_spec c2 NUL) as [->|Hc].
      * split; reflexivity.
      * rewrite IH. split; [intros ->; reflexivity|].
        intros H. now inversion H.
    + split.
      * intros H. exfalso. apply Hne. apply uchar_inj. lia.
      * intros H. exfalso.
        destruct (Ascii.eqb_spec c1 NUL) as [->|H1];
          destruct (Ascii.eqb_spec c2 NUL) as [->|H2];
          try discriminate H; try (now apply Hne).
        inversion H. now apply Hne.
Qed.

Lemma cstr_nul_free (s : string) : nul_free s = true -> cstr s = s.
Proof.
  induction s as [|c r IH]; cbn; [reflexivity|].
  intros H. apply andb_prop in H. destruct H as [Hc Hr].
  destruct (Ascii.eqb c NUL); [discriminate|]. now rewrite IH.
Qed.

(* ================================================================== *)
(** ** checkLayerSupport *)

Lemma matches_iff name lp :
  matches name lp = true <-> cstr (layerName lp) = cstr name.
Proof.
  unfold matches. rewrite Z.eqb_eq, strcmp_zero_iff. split; congruence.
Qed.

Lemma existsb_matches_iff name avail :
  existsb (matches name) avail = true <-> installed avail name.
Proof.
  rewrite existsb_exists. unfold installed.
  split; intros (lp & Hin & H); exists lp; (split; [exact Hin|]);
    now apply matches_iff.
Qed.

Section LayerLoops.

Variable host : Host.

Lemma find_layer_spec name avail : forall s,
  out (find_layer name avail s) = Ret (existsb (matches name) avail)
  /\ st (find_layer name avail s) = s
  /\ (forall e, In e (evs (find_layer name avail s)) ->
        exists lp, In lp avail /\ e = strcmp_ev name (layerName lp)).
Proof.
  induction avail as [|lp rest IH]; intros s.
  - cbn. repeat split. intros e [].
  - cbn [find_layer existsb]. fold (matches name lp).
    destruct (IH s) as (Ho & Hs & He).
    rewrite bind_emit.
    destruct (matches name lp) eqn:Hm; cbn [ret out st evs orb].
    + repeat split. intros e [<-|[]]. exists lp. split; [now left|reflexivity].
    + rewrite Ho, Hs. repeat split.
      intros e [<-|Hin].
      * exists lp. split; [now left|reflexivity].
      * destruct (He e Hin) as (lp' & Hin' & ->).
        exists lp'. split; [now right|reflexivity].
Qed.

Lemma layers_loop_spec avail layers : forall s,
  out (layers_loop layers avail s)
    = Ret (forallb (fun name => existsb (matches name) avail) layers)
  /\ st (layers_loop layers avail s) = s
  /\ (forall e, In e (evs (layers_loop layers avail s)) ->
        exists name lp,
          In name layers /\ In lp avail /\ e = strcmp_ev name (layerName lp)).
Proof.
  induction layers as [|name rest IH]; intros s.
  - cbn. repeat split. intros e [].
  - cbn [layers_loop forallb].
    destruct (find_layer_spec name avail s) as (Ho & Hs & He).
    rewrite (bind_Ret _ _ _ _ Ho), Hs. clear Ho Hs.
    destruct (IH s) as (Ho' & Hs' & He').
    destruct (existsb (matches name) avail);
      cbn [negb ret out st evs andb].
    + rewrite Ho', Hs'. repeat split.
      intros e Hin. apply in_app_or in Hin. destruct Hin as [Hin|Hin].
      * destruct (He e Hin) as (lp & Hlp & ->).
        exists name, lp. repeat split; [now left | exact Hlp].
      * destruct (He' e Hin) as (n & lp & Hn & Hlp & ->).
        exists n, lp. repeat split; [now right | exact Hlp].
    + repeat split.
      intros e Hin. rewrite app_nil_r in Hin.
      destruct (He e Hin) as (lp & Hlp & ->).
      exists name, lp. repeat split; [now left | exact Hlp].
Qed.

(** Once a requested name is missing, the names after it play no part. *)
Lemma layers_loop_cut avail pre m post s :
  Forall (fun name => existsb (matches name) avail = true) pre ->
  existsb (matches m) avail = false ->
  layers_loop (pre ++ m :: post) avail s = layers_loop (pre ++ [m]) avail s.
Proof.
  intros Hpre Hm. induction pre as [|name pre IH]; cbn [app layers_loop].
  - destruct (find_layer_spec m avail s) as (Ho & Hs & _).
    rewrite !(bind_Ret _ _ _ _ Ho), Hm. reflexivity.
  - inversion Hpre as [|? ? Hn Hpre']; subst.
    destruct (find_layer_spec name avail s) as (Ho & Hs & _).
    rewrite !(bind_Ret _ _ _ _ Ho), Hn, Hs. cbn [negb].
    rewrite (IH Hpre'). reflexivity.
Qed.

Lemma checkLayerSupport_eq requested s :
  checkLayerSupport host requested s
  = mkRes (out (layers_loop requested (h_layers host) s))
          (st (layers_loop requested (h_layers host) s))
          ([vkEnumerateInstanceLayerProperties_ev false;
            vkEnumerateInstanceLayerProperties_ev true]
           ++ evs (layers_loop requested (h_layers host) s)).
Proof. reflexivity. Qed.

End LayerLoops.

Lemma uninstall_not_installed name avail :
  ~ installed (uninstall name avail) name.
Proof.
  intros (lp & Hin & Heq). unfold uninstall in Hin.
  apply filter_In in Hin. destruct Hin as [_ Hneg].
  apply negb_true_iff in Hneg. apply String.eqb_neq in Hneg. contradiction.
Qed.

Lemma forallb_installed avail layers :
  forallb (fun name => existsb (matches name) avail) layers = true
  <-> (forall name, In name layers -> installed avail name).
Proof.
  rewrite forallb_forall. split; intros H name Hin.
  - apply existsb_matches_iff. now apply H.
  - apply existsb_matches_iff. now apply H.
Qed.

(** C3.  checkLayerSupport answers true exactly when every requested name
    is, character for character, the name of an installed layer.  At the
    first requested name that is missing it answers false, having done
    exactly the work of the request cut off after that name: no later name
    is ever compared.  On a host from which one of the requested layers
    has been removed the answer is false. *)
Theorem C3_checkLayerSupport_subset :
  forall (host : Host) (L : list string) (s : App),
    (exists b,
        out (checkLayerSupport host L s) = Ret b
        /\ (b = true <->
            forall name, In name L -> installed (h_layers host) name))
    /\ (forall pre m post,
          L = pre ++ m :: post ->
          (forall name, In name pre -> installed (h_layers host) name) ->
          ~ installed (h_layers host) m ->
          out (checkLayerSupport host L s) = Ret false
          /\ evs (checkLayerSupport host L s)
             = evs (checkLayerSupport host (pre ++ [m]) s)
          /\ forall a b,
               In (strcmp_ev a b) (evs (checkLayerSupport host L s)) ->
               In a (pre ++ [m]))
    /\ (forall name,
          In name L ->
          out (checkLayerSupport
                 (with_layers (uninstall name (h_layers host)) host) L s)
          = Ret false).
Proof.
  intros host L s. split; [|split].
  - rewrite checkLayerSupport_eq. cbn [out].
    destruct (layers_loop_spec (h_layers host) L s) as (Ho & _ & _).
    eexists. split; [exact Ho|]. apply forallb_installed.
  - intros pre m post -> Hpre Hm.
    assert (Forall (fun name => existsb (matches name) (h_layers host) = true)
              pre) as Hpre'.
    { apply Forall_forall. intros name Hin.
      apply existsb_matches_iff. now apply Hpre. }
    assert (existsb (matches m) (h_layers host) = false) as Hm'.
    { destruct (existsb (matches m) (h_layers host)) eqn:E; [|reflexivity].
      exfalso. apply Hm. now apply existsb_matches_iff. }
    rewrite !checkLayerSupport_eq. cbn [out evs].
    rewrite (layers_loop_cut (h_layers host) pre m post s Hpre' Hm').
    destruct (layers_loop_spec (h_layers host) (pre ++ [m]) s)
      as (Ho & _ & He).
    split; [|split].
    + rewrite Ho. f_equal. rewrite forallb_app. cbn [forallb].
      rewrite Hm'. now rewrite andb_false_r.
    + reflexivity.
    + intros a b [Hin|[Hin|Hin]]; try discriminate Hin.
      destruct (He _ Hin) as (n & lp & Hn & _ & Heq).
      inversion Heq; subst. exact Hn.
  - intros name Hin.
    rewrite checkLayerSupport_eq. cbn [out h_layers with_layers].
    destruct (layers_loop_spec (uninstall name (h_layers host)) L s)
      as (Ho & _ & _).
    rewrite Ho. f_equal.
    destruct (forallb _ L) eqn:E; [|reflexivity].
    exfalso. apply (uninstall_not_installed name (h_layers host)).
    rewrite forallb_installed in E. now apply E.
Qed.

Lemma C3_checkLayerSupport_witness :
  out (checkLayerSupport sample_host validationLayers blank) = Ret true
  /\ out (checkLayerSupport sample_host
            ["VK_LAYER_KHRONOS_validation"; "VK_LAYER_absent";
             "VK_LAYER_LUNARG_api_dump"] blank) = Ret false
  /\ out (checkLayerSupport
            (with_layers
               (uninstall "VK_LAYER_KHRONOS_validation" (h_layers sample_host))
               sample_host)
            validationLayers blank) = Ret false.
Proof.
  split; [|split].
  - destruct (C3_checkLayerSupport_subset sample_host validationLayers blank)
      as ((b & Hb & Hiff) & _ & _).
    rewrite Hb. f_equal. apply Hiff.
    intros name [<-|[]].
    exists {| layerName := "VK_LAYER_KHRONOS_validation" |}.
    split; [right; left; reflexivity | reflexivity].
  - destruct (C3_checkLayerSupport_subset sample_host
                ["VK_LAYER_KHRONOS_validation"; "VK_LAYER_absent";
                 "VK_LAYER_LUNARG_api_dump"] blank)
      as (_ & Hcut & _).
    apply (Hcut ["VK_LAYER_KHRONOS_validation"] "VK_LAYER_absent"
                ["VK_LAYER_LUNARG_api_dump"]).
    + reflexivity.
    + intros name [<-|[]].
      exists {| layerName := "VK_LAYER_KHRONOS_validation" |}.
      split; [right; left; reflexivity | reflexivity].
    + intros Hin. apply existsb_matches_iff in Hin. discriminate Hin.
  - destruct (C3_checkLayerSupport_subset sample_host validationLayers blank)
      as (_ & _ & Hrm).
    apply Hrm. left. reflexivity.
Defined.

(* ================================================================== *)
(** ** getRequiredExtensions *)

Lemma getRequiredExtensions_eq host enable s :
  getRequiredExtensions host enable s
  = mkRes (Ret (h_glfwExtensions host
                ++ (if enable then diagnostics_extensions else [])))
          s [glfwGetRequiredInstanceExtensions_ev].
Proof.
  unfold getRequiredExtensions. rewrite bind_emit.
  destruct enable; cbn [ret out st evs].
  - unfold diagnostics_extensions. now rewrite <- !app_assoc.
  - now rewrite app_nil_r.
Qed.

(** C4.  getRequiredExtensions returns the windowing library's list,
    unchanged and in front; a debug build appends the debug-utils name and
    the two portability names behind it, whether or not the list already
    had them; a release build returns the windowing list as it is. *)
Theorem C4_getRequiredExtensions_prefix :
  forall (host : Host) (s : App),
    getRequiredExtensions host true s
      = mkRes (Ret (h_glfwExtensions host ++ diagnostics_extensions)) s
              [glfwGetRequiredInstanceExtensions_ev]
    /\ getRequiredExtensions host false s
      = mkRes (Ret (h_glfwExtensions host)) s
              [glfwGetRequiredInstanceExtensions_ev]
    /\ firstn (List.length (h_glfwExtensions host))
              (h_glfwExtensions host ++ diagnostics_extensions)
       = h_glfwExtensions host
    /\ List.length (h_glfwExtensions host ++ diagnostics_extensions)
       = (List.length (h_glfwExtensions host) + 3)%nat.
Proof.
  intros host s. split; [|split; [|split]].
  - apply getRequiredExtensions_eq.
  - rewrite getRequiredExtensions_eq. now rewrite app_nil_r.
  - rewrite firstn_app, Nat.sub_diag, firstn_all. cbn. apply app_nil_r.
  - rewrite length_app. reflexivity.
Qed.

(** A windowing list that already names the debug-utils extension gets it
    a second time. *)
Example getRequiredExtensions_keeps_duplicates :
  out (getRequiredExtensions
         (with_layers [] sample_host) true blank)
  = Ret ["VK_KHR_surface"; "VK_EXT_metal_surface"; "VK_EXT_debug_utils";
         "VK_KHR_portability_enumeration";
         "VK_KHR_get_physical_device_properties2"]
  /\ (let host := {| h_window := 0;
                    h_glfwExtensions := ["VK_EXT_debug_utils"];
                    h_shouldClose := fun _ => true;
                    h_layers := [];
                    h_vkCreateInstance := fun _ => (VK_SUCCESS, 1);
                    h_procAddr := fun _ _ => true;
                    h_createMessenger := fun _ _ => (VK_SUCCESS, 1);
                    h_devices := [];
                    h_queueFamilies := fun _ => [];
                    h_vkCreateDevice := fun _ _ => (VK_SUCCESS, 1);
                    h_deviceQueue := fun _ _ _ => 1 |} in
      out (getRequiredExtensions host true blank)
      = Ret ["VK_EXT_debug_utils"; "VK_EXT_debug_utils";
             "VK_KHR_portability_enumeration";
             "VK_KHR_get_physical_device_properties2"]).
Proof. split; reflexivity. Qed.

(* ================================================================== *)
(** ** Physical-device selection *)

Lemma first_split {A} (p : A -> bool) (l : list A) :
  Forall (fun x => p x = false) l
  \/ exists pre x post,
       l = pre ++ x :: post /\ Forall (fun y => p y = false) pre /\ p x = true.
Proof.
  induction l as [|a l IH].
  - left. constructor.
  - destruct (p a) eqn:Ha.
    + right. exists [], a, l. repeat split; [constructor | exact Ha].
    + destruct IH as [Hn | (pre & x & post & -> & Hpre & Hx)].
      * left. constructor; assumption.
      * right. exists (a :: pre), x, post.
        repeat split; [constructor; assumption | exact Hx].
Qed.

Lemma isDeviceSuitable_eq host dev s :
  isDeviceSuitable host dev s = mkRes (Ret (suitable host dev)) s (queries dev).
Proof.
  unfold isDeviceSuitable, bind.
  rewrite findQueueFamilies_eq. cbn [ret out st evs app].
  rewrite scan_complete_iff. reflexivity.
Qed.

Lemma pick_loop_miss host devs s :
  none_suitable host devs ->
  pick_loop host devs s = mkRes (Ret tt) s (flat_map queries devs).
Proof.
  induction devs as [|d devs IH]; intros Hn.
  - reflexivity.
  - inversion Hn as [|? ? Hd Hn']; subst.
    cbn [pick_loop flat_map].
    rewrite (bind_Ret _ _ s (suitable host d))
      by (rewrite isDeviceSuitable_eq; reflexivity).
    rewrite isDeviceSuitable_eq, Hd. cbn [out st evs].
    rewrite (IH Hn'). reflexivity.
Qed.

Lemma pick_loop_hit host pre d post s :
  none_suitable host pre -> suitable host d = true ->
  pick_loop host (pre ++ d :: post) s
  = mkRes (Ret tt) (set_physicalDevice d s) (flat_map queries (pre ++ [d])).
Proof.
  intros Hn Hd. induction pre as [|x pre IH]; cbn [app pick_loop flat_map].
  - rewrite (bind_Ret _ _ s (suitable host d))
      by (rewrite isDeviceSuitable_eq; reflexivity).
    rewrite isDeviceSuitable_eq, Hd. reflexivity.
  - inversion Hn as [|? ? Hx Hn']; subst.
    rewrite (bind_Ret _ _ s (suitable host x))
      by (rewrite isDeviceSuitable_eq; reflexivity).
    rewrite isDeviceSuitable_eq, Hx. cbn [out st evs].
    rewrite (IH Hn'). reflexivity.
Qed.

Lemma pickPhysicalDevice_none host s :
  h_devices host = [] ->
  pickPhysicalDevice host s
  = mkRes (Throw NoDeviceFound) s
          [vkEnumeratePhysicalDevices_ev (instance s) false].
Proof.
  intros H. unfold pickPhysicalDevice.
  rewrite bind_get, bind_emit, H. reflexivity.
Qed.

Lemma pickPhysicalDevice_some host s :
  h_devices host <> [] ->
  pickPhysicalDevice host s
  = let r := pick_loop host (h_devices host) s in
    match out r with
    | Ret _ =>
        if physicalDevice (st r) =? VK_NULL_HANDLE
        then mkRes (Throw NoSuitableDevice) (st r)
                   (enumerations (instance s) ++ evs r)
        else mkRes (Ret tt) (st r) (enumerations (instance s) ++ evs r)
    | Throw e => mkRes (Throw e) (st r) (enumerations (instance s) ++ evs r)
    | Timeout => mkRes Timeout (st r) (enumerations (instance s) ++ evs r)
    end.
Proof.
  intros H. unfold pickPhysicalDevice.
  rewrite bind_get, bind_emit.
  destruct (h_devices host) as [|d devs] eqn:E; [congruence|].
  replace (Z.of_nat (List.length (d :: devs)) =? 0) with false
    by (symmetry; apply Z.eqb_neq; cbn [List.length]; lia).
  rewrite bind_emit. cbn [out st evs enumerations app].
  destruct (out (pick_loop host (d :: devs) s)) as [[]|e|] eqn:Ho.
  - rewrite (bind_Ret _ _ _ _ Ho), bind_get. cbn [out st evs].
    destruct (physicalDevice (st (pick_loop host (d :: devs) s))
              =? VK_NULL_HANDLE);
      cbn [throw ret out st evs]; now rewrite ?app_nil_r.
  - rewrite (bind_Throw _ _ _ _ Ho). reflexivity.
  - rewrite (bind_Timeout _ _ _ Ho). reflexivity.
Qed.

Lemma pickPhysicalDevice_hit host s pre d post :
  h_devices host = pre ++ d :: post ->
  none_suitable host pre ->
  suitable host d = true ->
  d <> VK_NULL_HANDLE ->
  pickPhysicalDevice host s
  = mkRes (Ret tt) (set_physicalDevice d s)
          (enumerations (instance s) ++ flat_map queries (pre ++ [d])).
Proof.
  intros Hdevs Hpre Hd Hdn.
  rewrite pickPhysicalDevice_some by (rewrite Hdevs; now destruct pre).
  rewrite Hdevs, (pick_loop_hit host pre d post s Hpre Hd).
  cbn [out st evs physicalDevice set_physicalDevice].
  apply Z.eqb_neq in Hdn. rewrite Hdn. reflexivity.
Qed.

(** C2.  pickPhysicalDevice walks the devices in the order the driver
    reports them and keeps the first one that passes the suitability
    check; the only queue-family queries it makes are those of the devices
    up to and including that one.  When no device passes, it throws
    NoSuitableDevice.  The application object is as constructed
    (physicalDevice is the null handle) and, as the driver guarantees,
    no enumerated handle is null. *)
Theorem C2_pickPhysicalDevice_first_suitable :
  forall (host : Host) (s : App),
    physicalDevice s = VK_NULL_HANDLE ->
    Forall (fun d => d <> VK_NULL_HANDLE) (h_devices host) ->
    (forall pre d post,
        h_devices host = pre ++ d :: post ->
        none_suitable host pre ->
        suitable host d = true ->
        pickPhysicalDevice host s
        = mkRes (Ret tt) (set_physicalDevice d s)
                (enumerations (instance s) ++ flat_map queries (pre ++ [d])))
    /\ (h_devices host <> [] ->
        none_suitable host (h_devices host) ->
        pickPhysicalDevice host s
        = mkRes (Throw NoSuitableDevice) s
                (enumerations (instance s)
                 ++ flat_map queries (h_devices host))).
Proof.
  intros host s Hnull Hvalid. split.
  - intros pre d post Hdevs Hpre Hd.
    apply (pickPhysicalDevice_hit host s pre d post); try assumption.
    rewrite Hdevs in Hvalid. apply Forall_app in Hvalid.
    destruct Hvalid as [_ Hvalid].
    now inversion Hvalid.
  - intros Hne Hnone.
    rewrite pickPhysicalDevice_some by exact Hne.
    rewrite (pick_loop_miss host (h_devices host) s Hnone).
    cbn [out st evs]. rewrite Hnull. reflexivity.
Qed.

(** Devices [unsuitable, suitable, suitable]: the second is picked and the
    third is never queried. *)
Lemma C2_first_suitable_witness :
  pickPhysicalDevice sample_host blank
  = mkRes (Ret tt) (set_physicalDevice 12 blank)
          [vkEnumeratePhysicalDevices_ev 0 false;
           vkEnumeratePhysicalDevices_ev 0 true;
           vkGetPhysicalDeviceQueueFamilyProperties_ev 11 false;
           vkGetPhysicalDeviceQueueFamilyProperties_ev 11 true;
           vkGetPhysicalDeviceQueueFamilyProperties_ev 12 false;
           vkGetPhysicalDeviceQueueFamilyProperties_ev 12 true]
  /\ pickPhysicalDevice (with_devices [11] sample_host) blank
     = mkRes (Throw NoSuitableDevice) blank
          [vkEnumeratePhysicalDevices_ev 0 false;
           vkEnumeratePhysicalDevices_ev 0 true;
           vkGetPhysicalDeviceQueueFamilyProperties_ev 11 false;
           vkGetPhysicalDeviceQueueFamilyProperties_ev 11 true].
Proof.
  split.
  - destruct (C2_pickPhysicalDevice_first_suitable sample_host blank)
      as [Hhit _].
    + reflexivity.
    + repeat constructor; discriminate.
    + apply (Hhit [11] 12 [13]);
        [reflexivity | repeat constructor | reflexivity].
  - destruct (C2_pickPhysicalDevice_first_suitable
                (with_devices [11] sample_host) blank)
      as [_ Hmiss].
    + reflexivity.
    + repeat constructor; discriminate.
    + apply Hmiss; [discriminate | repeat constructor].
Defined.

(** C6.  With no accelerator on the host, pickPhysicalDevice throws
    NoDeviceFound right after the count query: that query is its only
    driver call, and the application object is left untouched. *)
Theorem C6_pickPhysicalDevice_no_device :
  forall (host : Host) (s : App),
    h_devices host = [] ->
    pickPhysicalDevice host s
    = mkRes (Throw NoDeviceFound) s
            [vkEnumeratePhysicalDevices_ev (instance s) false].
Proof. intros host s H. now apply pickPhysicalDevice_none. Qed.

Lemma C6_no_device_witness :
  pickPhysicalDevice (with_devices [] sample_host) blank
  = mkRes (Throw NoDeviceFound) blank [vkEnumeratePhysicalDevices_ev 0 false].
Proof.
  apply (C6_pickPhysicalDevice_no_device (with_devices [] sample_host) blank).
  reflexivity.
Defined.

Lemma devices_empty_or_not host : h_devices host = [] \/ h_devices host <> [].
Proof. destruct (h_devices host); [now left | right; discriminate]. Qed.

(** What a successful selection leaves behind: a non-null handle of a
    suitable device. *)
Lemma pickPhysicalDevice_Ret host s :
  physicalDevice s = VK_NULL_HANDLE ->
  out (pickPhysicalDevice host s) = Ret tt ->
  exists d t,
    pickPhysicalDevice host s = mkRes (Ret tt) (set_physicalDevice d s) t
    /\ suitable host d = true
    /\ In d (h_devices host)
    /\ d <> VK_NULL_HANDLE.
Proof.
  intros Hnull Hret.
  destruct (devices_empty_or_not host) as [Hdevs|Hne].
  - rewrite pickPhysicalDevice_none in Hret by exact Hdevs. discriminate Hret.
  - rewrite pickPhysicalDevice_some in * by exact Hne.
    destruct (first_split (suitable host) (h_devices host))
      as [Hnone | (pre & d & post & Hsplit & Hpre & Hd)].
    + rewrite (pick_loop_miss host (h_devices host) s Hnone) in Hret.
      cbn [out st] in Hret. rewrite Hnull in Hret. discriminate Hret.
    + rewrite Hsplit in *.
      rewrite (pick_loop_hit host pre d post s Hpre Hd) in *.
      cbn [out st evs physicalDevice set_physicalDevice] in *.
      destruct (d =? VK_NULL_HANDLE) eqn:Hdn; [discriminate Hret|].
      exists d. eexists. split; [reflexivity|].
      split; [exact Hd|]. split; [|now apply Z.eqb_neq].
      apply in_elt.
Qed.

(* ================================================================== *)
(** ** Logical device *)

Lemma suitable_index host dev :
  suitable host dev = true ->
  exists i,
    fst (fst (scanQueueFamilies (h_queueFamilies host dev) empty_indices 0))
    = {| graphicsFamily := Some i |}.
Proof.
  unfold suitable. rewrite <- (scan_complete_iff _ 0).
  destruct (fst (fst (scanQueueFamilies _ _ _))) as [[i|]]; cbn.
  - intros _. now exists i.
  - discriminate.
Qed.

(** On a device that passed the suitability check, createLogicalDevice
    reads the family index twice without failure; the driver's answer to
    vkCreateDevice decides between the two ways it can end. *)
Lemma createLogicalDevice_suitable host enable s :
  suitable host (physicalDevice s) = true ->
  exists i,
    out (findQueueFamilies host (physicalDevice s) s)
      = Ret {| graphicsFamily := Some i |}
    /\ let pd := physicalDevice s in
       let ci := device_create_info enable i in
       let rh := h_vkCreateDevice host pd ci in
       createLogicalDevice host enable s
       = if fst rh =? VK_SUCCESS
         then mkRes (Ret tt)
                (set_graphicsQueue (h_deviceQueue host (snd rh) i 0)
                   (set_device (snd rh) s))
                (queries pd
                 ++ [vkCreateDevice_ev pd ci (fst rh) (snd rh);
                     vkGetDeviceQueue_ev (snd rh) i 0])
         else mkRes (Throw DeviceCreationFailed) (set_device (snd rh) s)
                (queries pd ++ [vkCreateDevice_ev pd ci (fst rh) (snd rh)]).
Proof.
  intros Hs. destruct (suitable_index host _ Hs) as [i Hi].
  exists i. split.
  - rewrite findQueueFamilies_eq. cbn [out]. now rewrite Hi.
  - cbn zeta. unfold createLogicalDevice.
    rewrite step_get.
    rewrite (step_Ret _ _ s _ _ _ (findQueueFamilies_eq host _ s)), Hi.
    cbn [graphicsFamily value]. rewrite step_ret.
    fold (device_create_info enable i).
    rewrite step_emit.
    destruct (fst (h_vkCreateDevice host (physicalDevice s)
                     (device_create_info enable i)) =? VK_SUCCESS).
    + msteps. mdone. reflexivity.
    + msteps. mdone. reflexivity.
Qed.

(** C9.  After a successful pickPhysicalDevice on the freshly constructed
    application, the two graphicsFamily.value() reads in
    createLogicalDevice cannot throw: the retained device passed
    isDeviceSuitable, which is exactly isComplete of findQueueFamilies,
    and findQueueFamilies gives the same answer each time it is asked
    about the same device. *)
Theorem C9_value_access_cannot_fail :
  forall (host : Host) (enable : bool) (s : App),
    physicalDevice s = VK_NULL_HANDLE ->
    out (pickPhysicalDevice host s) = Ret tt ->
    let s' := st (pickPhysicalDevice host s) in
    (exists i,
        out (findQueueFamilies host (physicalDevice s') s')
        = Ret {| graphicsFamily := Some i |})
    /\ (out (createLogicalDevice host enable s') = Ret tt
        \/ out (createLogicalDevice host enable s')
           = Throw DeviceCreationFailed)
    /\ out (createLogicalDevice host enable s') <> Throw bad_optional_access
    /\ (forall d s1,
          exists indices,
            out (findQueueFamilies host d s1) = Ret indices
            /\ out (isDeviceSuitable host d s1) = Ret (isComplete indices))
    /\ (forall d s1 s2,
          out (findQueueFamilies host d s1)
          = out (findQueueFamilies host d s2)).
Proof.
  intros host enable s Hnull Hret s'.
  destruct (pickPhysicalDevice_Ret host s Hnull Hret)
    as (d & t & Heq & Hd & _ & _).
  assert (suitable host (physicalDevice s') = true) as Hs'.
  { subst s'. rewrite Heq. exact Hd. }
  destruct (createLogicalDevice_suitable host enable s' Hs')
    as (i & Hfind & Hcreate).
  cbn zeta in Hcreate.
  split; [now exists i|].
  assert (out (createLogicalDevice host enable s') = Ret tt
          \/ out (createLogicalDevice host enable s')
             = Throw DeviceCreationFailed) as Hout.
  { rewrite Hcreate.
    destruct (fst (h_vkCreateDevice host _ _) =? VK_SUCCESS);
      [left|right]; reflexivity. }
  split; [exact Hout|]. split.
  - destruct Hout as [-> | ->]; discriminate.
  - split.
    + intros d0 s1. eexists. split.
      * rewrite findQueueFamilies_eq. reflexivity.
      * rewrite isDeviceSuitable_eq. cbn [out].
        now rewrite scan_complete_iff.
    + intros d0 s1 s2. now rewrite !findQueueFamilies_eq.
Qed.

Lemma C9_value_access_witness :
  out (createLogicalDevice sample_host true
         (st (pickPhysicalDevice sample_host blank)))
  <> Throw bad_optional_access.
Proof.
  destruct (C9_value_access_cannot_fail sample_host true blank)
    as (_ & _ & H & _).
  - reflexivity.
  - reflexivity.
  - exact H.
Defined.

(* ================================================================== *)
(** ** Lifecycle view of the events *)

Lemma lifecycle_app t1 t2 : lifecycle (t1 ++ t2) = lifecycle t1 ++ lifecycle t2.
Proof. apply filter_app. Qed.

Lemma lifecycle_none t :
  (forall e, In e t -> creation_call e || release_call e = false) ->
  lifecycle t = [].
Proof.
  induction t as [|e t IH]; intros H; [reflexivity|].
  unfold lifecycle. cbn [filter]. rewrite (H e (or_introl eq_refl)).
  apply IH. intros e' Hin. apply H. now right.
Qed.

Lemma acquired_creation e r : acquired e = Some r -> creation_call e = true.
Proof. destruct e; cbn; congruence. Qed.

Lemma collect_filter {A B} (f : A -> option B) (p : A -> bool) l :
  (forall a, f a <> None -> p a = true) ->
  collect f (filter p l) = collect f l.
Proof.
  intros H. induction l as [|a l IH]; [reflexivity|].
  cbn [filter collect]. destruct (p a) eqn:Hp.
  - cbn [collect]. now rewrite IH.
  - destruct (f a) eqn:Hf; [|exact IH].
    rewrite H in Hp by congruence. discriminate.
Qed.

Lemma acquisitions_lifecycle t : acquisitions (lifecycle t) = acquisitions t.
Proof.
  apply collect_filter. intros e He.
  destruct (acquired e) eqn:E; [|congruence].
  now rewrite (acquired_creation e r E).
Qed.

Lemma releases_lifecycle t : releases (lifecycle t) = releases t.
Proof.
  apply collect_filter. intros e He.
  unfold release_call. destruct (released e); [|congruence].
  apply orb_true_r.
Qed.

Lemma lifo_lifecycle t : forall live, lifo (lifecycle t) live = lifo t live.
Proof.
  induction t as [|e t IH]; intros live; [reflexivity|].
  unfold lifecycle. cbn [filter].
  destruct (creation_call e || release_call e) eqn:E.
  - cbn [lifo]. fold (lifecycle t).
    destruct (acquired e); [apply IH|].
    destruct (released e); [|apply IH].
    destruct live as [|top below]; [reflexivity|].
    destruct (Resource_eqb r top); [apply IH | reflexivity].
  - fold (lifecycle t). cbn [lifo].
    apply orb_false_elim in E. destruct E as [Ec Er].
    destruct (acquired e) eqn:Ea.
    + rewrite (acquired_creation e r Ea) in Ec. discriminate.
    + unfold release_call in Er. destruct (released e); [discriminate|].
      apply IH.
Qed.

Lemma lifetimes_nested_lifecycle t :
  lifetimes_nested (lifecycle t) = lifetimes_nested t.
Proof. unfold lifetimes_nested. now rewrite lifo_lifecycle. Qed.

Lemma evs_emitted {A} t (r : Res A) : evs (emitted t r) = t ++ evs r.
Proof. reflexivity. Qed.

Lemma out_emitted {A} t (r : Res A) : out (emitted t r) = out r.
Proof. reflexivity. Qed.

Lemma st_emitted {A} t (r : Res A) : st (emitted t r) = st r.
Proof. reflexivity. Qed.

(* ================================================================== *)
(** ** The stages of the bootstrap, one equation each *)

Section Stages.

Variable host : Host.
Variable enable : bool.

Lemma checkValidationLayerSupport_eq s :
  checkValidationLayerSupport host s
  = mkRes (Ret (layers_supported host)) s (check_events host s).
Proof.
  unfold check_events, checkValidationLayerSupport.
  rewrite checkLayerSupport_eq.
  destruct (layers_loop_spec (h_layers host) validationLayers s)
    as (Ho & Hs & _).
  rewrite Ho, Hs. reflexivity.
Qed.

Lemma check_events_lifecycle s : lifecycle (check_events host s) = [].
Proof.
  unfold check_events, checkValidationLayerSupport.
  rewrite checkLayerSupport_eq. cbn [evs].
  apply lifecycle_none. intros e [<-|[<-|Hin]]; try reflexivity.
  destruct (layers_loop_spec (h_layers host) validationLayers s)
    as (_ & _ & He).
  destruct (He e Hin) as (n & lp & _ & _ & ->). reflexivity.
Qed.

End Stages.

Section StageEquations.

Variable host : Host.
Variable enable : bool.

Lemma initWindow_eq s :
  initWindow host s
  = mkRes (Ret tt) (set_window (h_window host) s) (window_events host).
Proof. reflexivity. Qed.

(** Diagnostics requested but a layer is missing: createInstance throws
    having made the two layer enumerations and the comparisons only. *)
Lemma createInstance_unavailable s :
  layers_supported host = false ->
  createInstance host true s
  = mkRes (Throw ConfigurationError) s (check_events host s).
Proof.
  intros Hsup. unfold createInstance.
  rewrite (step_Ret _ _ s true s (check_events host s)).
  - msteps. mdone. now rewrite app_nil_r.
  - rewrite (step_Ret _ _ s _ _ _ (checkValidationLayerSupport_eq host s)).
    rewrite Hsup. mdone. now rewrite app_nil_r.
Qed.

Lemma createInstance_available s :
  enable && negb (layers_supported host) = false ->
  let ci := instance_create_info host enable in
  let rh := h_vkCreateInstance host ci in
  createInstance host enable s
  = if fst rh =? VK_SUCCESS
    then mkRes (Ret tt) (set_instance (snd rh) s)
           (instance_preamble host enable s
        ++ [vkCreateInstance_ev ci (fst rh) (snd rh)])
    else mkRes (Throw InstanceCreationFailed) (set_instance (snd rh) s)
           (instance_preamble host enable s
        ++ [vkCreateInstance_ev ci (fst rh) (snd rh)]).
Proof.
  intros Hok. cbn zeta. unfold createInstance.
  rewrite (step_Ret _ _ s false s (if enable then check_events host s else [])).
  - msteps.
    rewrite (step_Ret _ _ s _ _ _ (getRequiredExtensions_eq host enable s)).
    fold (instance_create_info host enable).
    rewrite step_emit. unfold instance_preamble.
    destruct (fst (h_vkCreateInstance host (instance_create_info host enable))
              =? VK_SUCCESS);
      mdone; now rewrite <- app_assoc.
  - destruct enable; [|reflexivity].
    rewrite (step_Ret _ _ s _ _ _ (checkValidationLayerSupport_eq host s)).
    cbn [andb] in Hok. apply negb_false_iff in Hok. rewrite Hok.
    mdone. now rewrite app_nil_r.
Qed.

Lemma instance_preamble_lifecycle s :
lifecycle (instance_preamble host enable s) = [].
Proof.
  unfold instance_preamble. rewrite lifecycle_app.
  destruct enable; [rewrite check_events_lifecycle|]; reflexivity.
Qed.

Lemma setupDebugMessenger_eq s :
  setupDebugMessenger host enable s
  = if negb enable then mkRes (Ret tt) s []
    else
      let inst := instance s in
      let pci := populateDebugMessengerCreateInfo in
      let rh := h_createMessenger host inst pci in
      if h_procAddr host inst create_name
      then
        if fst rh =? VK_SUCCESS
        then mkRes (Ret tt) (set_debugMessenger (snd rh) s)
               [vkGetInstanceProcAddr_ev inst create_name;
                PFN_vkCreateDebugUtilsMessengerEXT_ev
                  inst pci (fst rh) (snd rh)]
        else mkRes (Throw ExtensionUnavailable)
               (set_debugMessenger (snd rh) s)
               [vkGetInstanceProcAddr_ev inst create_name;
                PFN_vkCreateDebugUtilsMessengerEXT_ev
                  inst pci (fst rh) (snd rh)]
      else mkRes (Throw ExtensionUnavailable) s
             [vkGetInstanceProcAddr_ev inst create_name].
Proof.
  unfold setupDebugMessenger. destruct enable; cbn [negb]; [|reflexivity].
  cbn zeta. unfold CreateDebugUtilsMessengerEXT. fold create_name.
  msteps.
  destruct (h_procAddr host (instance s) create_name).
  - msteps.
    destruct (fst (h_createMessenger host (instance s)
                     populateDebugMessengerCreateInfo) =? VK_SUCCESS) eqn:Hr;
      msteps; rewrite ?Hr; mdone; reflexivity.
  - msteps. mdone. reflexivity.
Qed.

Lemma cleanup_eq s :
  cleanup host enable s
  = mkRes (Ret tt) s
      ([vkDestroyDevice_ev (device s)]
       ++ (if enable
           then vkGetInstanceProcAddr_ev (instance s) destroy_name
                :: (if h_procAddr host (instance s) destroy_name
                    then [PFN_vkDestroyDebugUtilsMessengerEXT_ev
                            (instance s) (debugMessenger s)]
                    else [])
           else [])
       ++ [vkDestroyInstance_ev (instance s);
           glfwDestroyWindow_ev (window s);
           glfwTerminate_ev]).
Proof.
  unfold cleanup, DestroyDebugUtilsMessengerEXT. fold destroy_name.
  msteps.
  destruct enable; msteps;
    [destruct (h_procAddr host (instance s) destroy_name); msteps|];
    mdone; reflexivity.
Qed.

Lemma mainLoop_from_cases fuel : forall n s,
  exists t,
    lifecycle t = []
    /\ (mainLoop_from host fuel n s = mkRes (Ret tt) s t
        \/ mainLoop_from host fuel n s = mkRes Timeout s t).
Proof.
  induction fuel as [|fuel IH]; intros n s.
  - exists []. split; [reflexivity|]. right. reflexivity.
  - cbn [mainLoop_from]. rewrite step_get, step_emit.
    destruct (h_shouldClose host n).
    + eexists. split; [|left; mdone; reflexivity]. reflexivity.
    + rewrite step_emit.
      destruct (IH (S n) s) as (t & Ht & [Heq|Heq]); rewrite Heq; mdone;
        (eexists; split; [|first [left; reflexivity | right; reflexivity]]);
        cbn; exact Ht.
Qed.

(** When the window library reports the close signal at query [k] for
    the first time, the idle loop returns with any fuel above [k]. *)
Lemma mainLoop_from_terminates k : forall fuel n s,
  (forall j, (j < k)%nat -> h_shouldClose host (n + j) = false) ->
  h_shouldClose host (n + k) = true ->
  (k < fuel)%nat ->
  out (mainLoop_from host fuel n s) = Ret tt.
Proof.
  induction k as [|k IH]; intros fuel n s Hbefore Hat Hfuel;
    (destruct fuel as [|fuel]; [lia|]);
    cbn [mainLoop_from]; rewrite step_get, step_emit, out_emitted.
  - rewrite Nat.add_0_r in Hat. rewrite Hat. reflexivity.
  - assert (h_shouldClose host n = false) as H0.
    { rewrite <- (Nat.add_0_r n). apply Hbefore. lia. }
    rewrite H0, step_emit, out_emitted.
    apply IH; [|now rewrite Nat.add_succ_comm|lia].
    intros j Hj. rewrite Nat.add_succ_comm. apply Hbefore. lia.
Qed.

End StageEquations.

(* ================================================================== *)
(** ** The shape of a whole run *)

Lemma pick_cases host s :
  physicalDevice s = VK_NULL_HANDLE ->
  exists t,
    lifecycle t = []
    /\ ((exists s', pickPhysicalDevice host s = mkRes (Throw NoDeviceFound) s' t)
        \/ (exists s',
              pickPhysicalDevice host s = mkRes (Throw NoSuitableDevice) s' t)
        \/ (exists d,
              pickPhysicalDevice host s
              = mkRes (Ret tt) (set_physicalDevice d s) t
              /\ suitable host d = true)).
Proof.
  intros Hnull.
  assert (forall devs, lifecycle (flat_map queries devs) = []) as Hq.
  { intros devs. apply lifecycle_none. intros e Hin.
    apply in_flat_map in Hin. destruct Hin as (d & _ & [<-|[<-|[]]]);
      reflexivity. }
  destruct (devices_empty_or_not host) as [Hdevs|Hne].
  - eexists. split; [|left; eexists; now apply pickPhysicalDevice_none].
    reflexivity.
  - rewrite pickPhysicalDevice_some by exact Hne.
    destruct (first_split (suitable host) (h_devices host))
      as [Hnone | (pre & d & post & Hsplit & Hpre & Hd)].
    + rewrite (pick_loop_miss host (h_devices host) s Hnone).
      cbn [out st evs]. rewrite Hnull. cbn.
      eexists. split; [|right; left; eexists; reflexivity].
      apply (Hq (h_devices host)).
    + rewrite Hsplit, (pick_loop_hit host pre d post s Hpre Hd).
      cbn [out st evs physicalDevice set_physicalDevice].
      destruct (d =? VK_NULL_HANDLE); cbn;
        (eexists; split;
         [|first [right; left; eexists; reflexivity
                 |right; right; exists d; split; [reflexivity|exact Hd]]]);
        apply (Hq (pre ++ [d])).
Qed.

Lemma run_shape_holds host enable fuel s :
  physicalDevice s = VK_NULL_HANDLE ->
  run_shape host enable
    (out (run host enable fuel s))
    (lifecycle (evs (run host enable fuel s))).
Proof.
  intros Hnull. unfold run, initVulkan.
  rewrite (step_Ret _ _ s _ _ _ (initWindow_eq host s)).
  rewrite out_emitted, evs_emitted, lifecycle_app.
  change (lifecycle (window_events host)) with (opened host).
  set (s1 := set_window (h_window host) s).
  rewrite !bind_assoc.
  (* createInstance *)
  destruct (enable && negb (layers_supported host)) eqn:Hlay.
  { apply andb_prop in Hlay. destruct Hlay as [-> Hsup].
    apply negb_true_iff in Hsup.
    rewrite (step_Throw _ _ s1 _ _ _ (createInstance_unavailable host s1 Hsup)).
    cbn [out evs]. rewrite check_events_lifecycle, app_nil_r.
    now constructor. }
  pose proof (createInstance_available host enable s1 Hlay) as Hci.
  cbn zeta in Hci.
  set (ci := instance_create_info host enable) in *.
  destruct (h_vkCreateInstance host ci) as [ri hi]. cbn [fst snd] in Hci.
  destruct (ri =? VK_SUCCESS) eqn:Hri.
  2:{ rewrite (step_Throw _ _ s1 _ _ _ Hci). cbn [out evs].
      rewrite lifecycle_app, instance_preamble_lifecycle. cbn [app].
      apply shape_instance. now apply Z.eqb_neq. }
  apply Z.eqb_eq in Hri. subst ri.
  rewrite (step_Ret _ _ s1 _ _ _ Hci). clear Hci.
  rewrite out_emitted, evs_emitted, !lifecycle_app, instance_preamble_lifecycle.
  cbn [app].
  change (lifecycle [vkCreateInstance_ev ci VK_SUCCESS hi])
    with [vkCreateInstance_ev ci VK_SUCCESS hi].
  set (s2 := set_instance hi s1).
  (* setupDebugMessenger *)
  rewrite !bind_assoc.
  pose proof (setupDebugMessenger_eq host enable s2) as Hdm.
  cbn zeta in Hdm. change (instance s2) with hi in Hdm.
  assert ((exists hm s3,
             setupDebugMessenger host enable s2
             = mkRes (Ret tt) s3 (evs (setupDebugMessenger host enable s2))
             /\ lifecycle (evs (setupDebugMessenger host enable s2))
                = diag_created enable hi hm
             /\ physicalDevice s3 = VK_NULL_HANDLE
             /\ instance s3 = hi
             /\ window s3 = h_window host
             /\ (enable = true -> debugMessenger s3 = hm)
             /\ (enable = true -> h_procAddr host hi create_name = true))
         \/ run_shape host enable
              (out (setupDebugMessenger host enable s2))
              (opened host ++ [vkCreateInstance_ev ci VK_SUCCESS hi]
               ++ lifecycle (evs (setupDebugMessenger host enable s2)))
            /\ exists e, out (setupDebugMessenger host enable s2) = Throw e)
    as Hsetup.
  { rewrite Hdm. unfold diag_created. destruct enable; cbn [negb].
    - destruct (h_procAddr host hi create_name) eqn:Hp.
      + destruct (h_createMessenger host hi populateDebugMessengerCreateInfo)
          as [rm hm]. cbn [fst snd].
        destruct (rm =? VK_SUCCESS) eqn:Hrm.
        * apply Z.eqb_eq in Hrm. subst rm.
          left. exists hm. eexists. cbn [evs].
          repeat split; try reflexivity. exact Hnull.
        * right. split; [|eexists; reflexivity]. cbn [out evs].
          apply shape_messenger; [reflexivity | now apply Z.eqb_neq].
      + right. split; [|eexists; reflexivity]. cbn [out evs].
        now apply shape_unresolved.
    - left. exists 0. eexists. cbn [evs].
      repeat split; try reflexivity; try exact Hnull; discriminate. }
  destruct Hsetup
    as [(hm & s3 & Heq & Hlc & Hnull3 & Hinst3 & Hwin3 & Hdm3 & Hres)
       | (Hshape & e & He)].
  2:{ rewrite (bind_Throw _ _ _ _ He). cbn [out evs].
      rewrite He in Hshape. exact Hshape. }
  rewrite (step_Ret _ _ s2 _ _ _ Heq).
  rewrite out_emitted, evs_emitted, lifecycle_app, Hlc. clear Heq Hlc Hdm.
  rewrite !app_assoc. rewrite <- (app_assoc (opened host)).
  fold (booted host enable ci hi hm).
  (* pickPhysicalDevice *)
  rewrite !bind_assoc.
  destruct (pick_cases host s3 Hnull3)
    as (tp & Htp & [(s' & Hp) | [(s' & Hp) | (d & Hp & Hd)]]).
  { rewrite (step_Throw _ _ s3 _ _ _ Hp). cbn [out evs].
    rewrite Htp, app_nil_r. constructor. }
  { rewrite (step_Throw _ _ s3 _ _ _ Hp). cbn [out evs].
    rewrite Htp, app_nil_r. constructor. }
  rewrite (step_Ret _ _ s3 _ _ _ Hp).
  rewrite out_emitted, evs_emitted, lifecycle_app, Htp. cbn [app]. clear Hp Htp.
  set (s4 := set_physicalDevice d s3).
  (* createLogicalDevice *)
  destruct (createLogicalDevice_suitable host enable s4 Hd)
    as (i & _ & Hcl). cbn zeta in Hcl.
  change (physicalDevice s4) with d in Hcl.
  set (dci := device_create_info enable i) in *.
  destruct (h_vkCreateDevice host d dci) as [rd hd]. cbn [fst snd] in Hcl.
  assert (lifecycle (queries d) = []) as Hq by reflexivity.
  destruct (rd =? VK_SUCCESS) eqn:Hrd.
  2:{ rewrite (step_Throw _ _ s4 _ _ _ Hcl). cbn [out evs].
      rewrite lifecycle_app, Hq. cbn [app].
      apply shape_device. now apply Z.eqb_neq. }
  apply Z.eqb_eq in Hrd. subst rd.
  rewrite (step_Ret _ _ s4 _ _ _ Hcl). clear Hcl.
  rewrite out_emitted, evs_emitted, !lifecycle_app, Hq. cbn [app].
  change (lifecycle [vkCreateDevice_ev d dci VK_SUCCESS hd;
                     vkGetDeviceQueue_ev hd i 0])
    with [vkCreateDevice_ev d dci VK_SUCCESS hd].
  set (s5 := set_graphicsQueue (h_deviceQueue host hd i 0) (set_device hd s4)).
  (* mainLoop *)
  unfold mainLoop.
  destruct (mainLoop_from_cases host fuel 0 s5) as (tm & Htm & [Hm|Hm]).
  2:{ rewrite (step_Timeout _ _ s5 _ _ Hm). cbn [out evs].
      rewrite Htm, app_nil_r. constructor. }
  rewrite (step_Ret _ _ s5 _ _ _ Hm).
  rewrite out_emitted, evs_emitted, lifecycle_app, Htm. cbn [app]. clear Hm Htm.
  (* cleanup *)
  rewrite cleanup_eq. cbn [out evs].
  change (device s5) with hd. change (instance s5) with (instance s3).
  change (window s5) with (window s3).
  change (debugMessenger s5) with (debugMessenger s3).
  rewrite Hinst3, Hwin3.
  replace (lifecycle _) with (torn_down host enable hi hm hd).
  - apply shape_exit. exact Hres.
  - unfold torn_down, diag_destroyed. rewrite !lifecycle_app.
    destruct enable.
    + rewrite (Hdm3 eq_refl).
      destruct (h_procAddr host hi destroy_name); reflexivity.
    + reflexivity.
Qed.

(* ================================================================== *)
(** ** Instance creation without the requested layers *)

Lemma collect_app {A B} (f : A -> option B) l1 l2 :
  collect f (l1 ++ l2) = collect f l1 ++ collect f l2.
Proof.
  induction l1 as [|a l1 IH]; [reflexivity|].
  cbn [app collect]. destruct (f a); cbn [app]; now rewrite IH.
Qed.

Lemma attempts_lifecycle t : attempts (lifecycle t) = attempts t.
Proof.
  apply collect_filter. intros e He.
  destruct e; cbn in He |- *; congruence.
Qed.

Lemma lifecycle_In e t : In e t -> creation_call e = true -> In e (lifecycle t).
Proof.
  intros Hin Hc. apply filter_In. split; [exact Hin|]. now rewrite Hc.
Qed.

(** C5.  In a debug build, when checkValidationLayerSupport answers
    false, createInstance throws ConfigurationError having made only the
    layer enumerations and name comparisons of that check: it issues no
    creating call, acquires nothing and leaves the application object as it
    was; the whole run stops there with the same error and no
    vkCreateInstance call. *)
Theorem C5_layers_unavailable_before_any_handle :
  forall (host : Host) (s : App) (fuel : nat) (indeterminate : App),
    out (checkValidationLayerSupport host s) = Ret false ->
    createInstance host true s
      = mkRes (Throw ConfigurationError) s
              (evs (checkValidationLayerSupport host s))
    /\ (forall e, In e (evs (createInstance host true s)) ->
          creation_call e = false)
    /\ acquisitions (evs (createInstance host true s)) = []
    /\ out (run host true fuel (HelloTriangleApplication indeterminate))
       = Throw ConfigurationError
    /\ (forall ci r h,
          ~ In (vkCreateInstance_ev ci r h)
               (evs (run host true fuel
                       (HelloTriangleApplication indeterminate)))).
Proof.
  intros host s fuel ind Hcheck.
  assert (layers_supported host = false) as Hsup.
  { rewrite checkValidationLayerSupport_eq in Hcheck. cbn [out] in Hcheck.
    congruence. }
  pose proof (createInstance_unavailable host s Hsup) as Heq.
  fold (check_events host s).
  split; [exact Heq|]. rewrite Heq. cbn [evs].
  assert (forall e, In e (check_events host s) -> creation_call e = false)
    as Hnone.
  { intros e Hin. destruct (creation_call e) eqn:Hc; [|reflexivity].
    pose proof (lifecycle_In e _ Hin Hc) as Hl.
    rewrite check_events_lifecycle in Hl. destruct Hl. }
  split; [exact Hnone|]. split.
  - rewrite <- acquisitions_lifecycle, check_events_lifecycle. reflexivity.
  - pose proof (run_shape_holds host true fuel
                  (HelloTriangleApplication ind) eq_refl) as Hshape.
    assert (out (run host true fuel (HelloTriangleApplication ind))
            = Throw ConfigurationError) as Hout.
    { unfold run, initVulkan.
      rewrite (step_Ret _ _ _ _ _ _ (initWindow_eq host _)), out_emitted.
      rewrite !bind_assoc.
      rewrite (step_Throw _ _ _ _ _ _
                 (createInstance_unavailable host _ Hsup)).
      reflexivity. }
    split; [exact Hout|].
    intros ci r h Hin. rewrite Hout in Hshape.
    pose proof (lifecycle_In _ _ Hin eq_refl) as Hl.
    remember (lifecycle (evs (run host true fuel
                                (HelloTriangleApplication ind)))) as t.
    inversion Hshape; subst t.
    match goal with
    | H : opened _ = lifecycle _ |- _ => rewrite <- H in Hl
    end.
    destruct Hl as [Hl|[Hl|[]]]; discriminate Hl.
Qed.

Lemma C5_layers_unavailable_witness :
  createInstance (with_layers [] sample_host) true blank
  = mkRes (Throw ConfigurationError) blank
          [vkEnumerateInstanceLayerProperties_ev false;
           vkEnumerateInstanceLayerProperties_ev true].
Proof.
  apply (C5_layers_unavailable_before_any_handle
           (with_layers [] sample_host) blank 3 blank).
  reflexivity.
Defined.

(** X15.  On a host where every stage succeeds and the close signal first
    comes at query [k], [run] returns normally with any fuel above [k]. *)
Lemma run_returns host enable fuel s k pre d post :
  physicalDevice s = VK_NULL_HANDLE ->
  enable && negb (layers_supported host) = false ->
  fst (h_vkCreateInstance host (instance_create_info host enable))
    = VK_SUCCESS ->
  (enable = true ->
   forall inst,
     h_procAddr host inst create_name = true
     /\ fst (h_createMessenger host inst populateDebugMessengerCreateInfo)
        = VK_SUCCESS) ->
  h_devices host = pre ++ d :: post ->
  none_suitable host pre ->
  suitable host d = true ->
  d <> VK_NULL_HANDLE ->
  (forall dci, fst (h_vkCreateDevice host d dci) = VK_SUCCESS) ->
  (forall j, (j < k)%nat -> h_shouldClose host j = false) ->
  h_shouldClose host k = true ->
  (k < fuel)%nat ->
  out (run host enable fuel s) = Ret tt.
Proof.
  intros Hnull Hlay Hci Hdiag Hdevs Hpre Hd Hdn Hcd Hbefore Hat Hfuel.
  unfold run, initVulkan.
  rewrite (step_Ret _ _ s _ _ _ (initWindow_eq host s)), out_emitted.
  rewrite !bind_assoc.
  pose proof (createInstance_available host enable
                (set_window (h_window host) s) Hlay) as Heq.
  cbn zeta in Heq. rewrite Hci in Heq. cbn [Z.eqb VK_SUCCESS] in Heq.
  rewrite (step_Ret _ _ _ _ _ _ Heq), out_emitted. clear Heq.
  rewrite !bind_assoc.
  assert (exists s3 t,
             setupDebugMessenger host enable
               (set_instance
                  (snd (h_vkCreateInstance host
                          (instance_create_info host enable)))
                  (set_window (h_window host) s))
             = mkRes (Ret tt) s3 t) as (s3 & t3 & Heq).
  { rewrite setupDebugMessenger_eq. destruct enable; cbn [negb].
    - cbn zeta. destruct (Hdiag eq_refl (instance (set_instance
          (snd (h_vkCreateInstance host (instance_create_info host true)))
          (set_window (h_window host) s)))) as [Hp Hm].
      rewrite Hp, Hm. cbn [Z.eqb VK_SUCCESS]. eauto.
    - eauto. }
  rewrite (step_Ret _ _ _ _ _ _ Heq), out_emitted. clear Heq.
  rewrite !bind_assoc.
  rewrite (step_Ret _ _ _ _ _ _
             (pickPhysicalDevice_hit host s3 pre d post Hdevs Hpre Hd Hdn)),
    out_emitted.
  destruct (createLogicalDevice_suitable host enable
              (set_physicalDevice d s3) Hd) as (i & _ & Heq).
  cbn zeta in Heq. change (physicalDevice (set_physicalDevice d s3)) with d in Heq.
  rewrite Hcd in Heq. cbn [Z.eqb VK_SUCCESS] in Heq.
  rewrite (step_Ret _ _ _ _ _ _ Heq), out_emitted. clear Heq.
  unfold mainLoop.
  match goal with
  | |- out (bind (mainLoop_from host fuel O) _ ?s5) = _ =>
      pose proof (mainLoop_from_terminates host k fuel O s5) as Hterm;
      destruct (mainLoop_from_cases host fuel O s5) as (tm & _ & [Hm|Hm])
  end.
  - rewrite (step_Ret _ _ _ _ _ _ Hm), out_emitted, cleanup_eq. reflexivity.
  - rewrite Hm in Hterm. cbn [out] in Hterm.
    assert (@Timeout unit = Ret tt) as Habs by (apply Hterm; assumption).
    discriminate Habs.
Qed.

(* ================================================================== *)
(** ** Teardown *)

Lemma run_exit_shape host enable fuel s :
  physicalDevice s = VK_NULL_HANDLE ->
  out (run host enable fuel s) = Ret tt ->
  exists ci hi hm pd dci hd,
    lifecycle (evs (run host enable fuel s))
    = booted host enable ci hi hm
      ++ [vkCreateDevice_ev pd dci VK_SUCCESS hd]
      ++ torn_down host enable hi hm hd
    /\ (enable = true -> h_procAddr host hi create_name = true).
Proof.
  intros Hnull Hout.
  pose proof (run_shape_holds host enable fuel s Hnull) as Hshape.
  rewrite Hout in Hshape.
  remember (lifecycle (evs (run host enable fuel s))) as t.
  inversion Hshape; subst. now exists ci, hi, hm, pd, dci, hd.
Qed.

(** What teardown does on any loader.  On every normal exit it gives back
    the logical device first, then the diagnostics channel when the build
    has diagnostics and the loader resolves the destroy entry point on the
    instance, then the instance, then the window and the windowing
    library.  In a debug build the create entry point had resolved on
    that instance. *)
Lemma teardown_order :
  forall (host : Host) (enable : bool) (fuel : nat) (indeterminate : App),
    out (run host enable fuel (HelloTriangleApplication indeterminate))
      = Ret tt ->
    let t := evs (run host enable fuel
                    (HelloTriangleApplication indeterminate)) in
    exists hi hm hd,
      acquisitions t
        = [RGlfw; RWindow (h_window host); RInstance hi]
          ++ (if enable then [RMessenger hm] else [])
          ++ [RDevice hd]
      /\ releases t
        = [RDevice hd]
          ++ (if enable && h_procAddr host hi destroy_name
              then [RMessenger hm] else [])
          ++ [RInstance hi; RWindow (h_window host); RGlfw]
      /\ (enable = true -> h_procAddr host hi create_name = true)
      /\ (enable && negb (h_procAddr host hi destroy_name) = false ->
          releases t = rev (acquisitions t)
          /\ lifetimes_nested t = true).
Proof.
  intros host enable fuel ind Hout t.
  destruct (run_exit_shape host enable fuel
              (HelloTriangleApplication ind) eq_refl Hout)
    as (ci & hi & hm & pd & dci & hd & Hshape & Hres).
  fold t in Hshape.
  exists hi, hm, hd.
  rewrite <- (acquisitions_lifecycle t), <- (releases_lifecycle t),
    <- (lifetimes_nested_lifecycle t), Hshape.
  unfold booted, torn_down, diag_created, diag_destroyed, opened,
    lifetimes_nested.
  destruct enable; [destruct (h_procAddr host hi destroy_name)|];
    cbn; rewrite ?Z.eqb_refl; cbn; rewrite ?Z.eqb_refl;
    repeat split; try discriminate; try reflexivity; try exact Hres.
Qed.

(** C7.  On every normal exit teardown gives back what was created in the
    exact reverse of the order of creation: the logical device first, then
    the diagnostics channel if the build created one, then the instance,
    then the window and the windowing library; so every lifetime is nested
    in the lifetimes of what was created before.  The loader is one that
    resolves the destroy entry point of the diagnostics extension on the
    instance on which it resolved the create entry point. *)
Theorem C7_teardown_reverse_of_creation :
  forall (host : Host) (enable : bool) (fuel : nat) (indeterminate : App),
    coherent_loader host ->
    out (run host enable fuel (HelloTriangleApplication indeterminate))
      = Ret tt ->
    let t := evs (run host enable fuel
                    (HelloTriangleApplication indeterminate)) in
    exists hi hm hd,
      acquisitions t
        = [RGlfw; RWindow (h_window host); RInstance hi]
          ++ (if enable then [RMessenger hm] else [])
          ++ [RDevice hd]
      /\ releases t
        = [RDevice hd]
          ++ (if enable then [RMessenger hm] else [])
          ++ [RInstance hi; RWindow (h_window host); RGlfw]
      /\ releases t = rev (acquisitions t)
      /\ lifetimes_nested t = true.
Proof.
  intros host enable fuel ind Hco Hout t.
  destruct (teardown_order host enable fuel ind Hout)
    as (hi & hm & hd & Hacq & Hrel & Hres & Hrev).
  fold t in Hacq, Hrel, Hrev.
  assert (enable && negb (h_procAddr host hi destroy_name) = false) as Hd.
  { destruct enable; [|reflexivity]. cbn [andb].
    now rewrite (Hco hi (Hres eq_refl)). }
  exists hi, hm, hd. split; [exact Hacq|]. split; [|exact (Hrev Hd)].
  rewrite Hrel. destruct enable; [|reflexivity].
  now rewrite (Hco hi (Hres eq_refl)).
Qed.

Lemma C7_teardown_witness :
  let t := evs (run sample_host true 10 (HelloTriangleApplication blank)) in
  releases t = rev (acquisitions t) /\ lifetimes_nested t = true.
Proof.
  destruct (C7_teardown_reverse_of_creation sample_host true 10 blank)
    as (hi & hm & hd & _ & _ & H).
  - intros inst _. reflexivity.
  - reflexivity.
  - exact H.
Defined.

(** The condition on the loader cannot be dropped: a loader that resolves
    the create entry point but not the destroy entry point lets the run
    exit normally with the channel created and never given back. *)
Example teardown_needs_coherent_loader :
  ~ coherent_loader lopsided_host
  /\ out (run lopsided_host true 10 (HelloTriangleApplication blank)) = Ret tt
  /\ releases (evs (run lopsided_host true 10
                      (HelloTriangleApplication blank)))
     = [RDevice 21; RInstance 7; RWindow 5; RGlfw].
Proof.
  split; [|split; reflexivity].
  intros H. specialize (H 0 eq_refl). discriminate H.
Qed.

(* ================================================================== *)
(** ** main *)

Lemma main_eq host enable fuel ind :
  main host enable fuel ind
  = let r := run host enable fuel (HelloTriangleApplication ind) in
    match out r with
    | Ret _ => mkRes (Ret EXIT_SUCCESS) (st r) (evs r)
    | Throw e =>
        mkRes (Ret EXIT_FAILURE) (st r) (evs r ++ [cerr_ev (what e)])
    | Timeout => mkRes Timeout (st r) (evs r)
    end.
Proof.
  unfold main, try_catch, bind. cbn zeta.
  destruct (run host enable fuel (HelloTriangleApplication ind))
    as [[[]|e|] s' t]; cbn; now rewrite ?app_nil_r.
Qed.

Lemma run_throw_shape host enable fuel s e :
  physicalDevice s = VK_NULL_HANDLE ->
  out (run host enable fuel s) = Throw e ->
  In e bootstrap_errors
  /\ releases (evs (run host enable fuel s)) = []
  /\ NoDup (attempts (evs (run host enable fuel s))).
Proof.
  intros Hnull Hout.
  pose proof (run_shape_holds host enable fuel s Hnull) as Hshape.
  rewrite Hout in Hshape.
  rewrite <- releases_lifecycle, <- attempts_lifecycle.
  remember (lifecycle (evs (run host enable fuel s))) as t.
  inversion Hshape; subst;
    unfold booted, diag_created, opened, bootstrap_errors;
    (split; [cbn; tauto|]);
    try destruct enable; cbn;
    (split; [reflexivity|]);
    repeat (constructor; [cbn; intuition discriminate|]); constructor.
Qed.

(** C8.  When the bootstrap throws, the exception is one of the six
    bootstrap errors; main writes its message to the error stream as its
    last event and returns EXIT_FAILURE, which is not 0.  Nothing else
    happens after the throw: no resource acquired so far is released, and
    no creating call has been issued twice.  When run returns, main
    returns EXIT_SUCCESS, which is 0. *)
Theorem C8_bootstrap_errors_are_fatal :
  forall (host : Host) (enable : bool) (fuel : nat) (indeterminate : App),
    let r := run host enable fuel (HelloTriangleApplication indeterminate) in
    let m := main host enable fuel indeterminate in
    (forall e,
        out r = Throw e ->
        In e bootstrap_errors
        /\ m = mkRes (Ret EXIT_FAILURE) (st r) (evs r ++ [cerr_ev (what e)])
        /\ EXIT_FAILURE <> 0
        /\ releases (evs m) = []
        /\ NoDup (attempts (evs m)))
    /\ (out r = Ret tt ->
        m = mkRes (Ret EXIT_SUCCESS) (st r) (evs r) /\ EXIT_SUCCESS = 0).
Proof.
  intros host enable fuel ind r m. split.
  - intros e Hout.
    destruct (run_throw_shape host enable fuel
                (HelloTriangleApplication ind) e eq_refl Hout)
      as (Hin & Hrel & Hnd).
    fold r in Hrel, Hnd.
    assert (m = mkRes (Ret EXIT_FAILURE) (st r) (evs r ++ [cerr_ev (what e)]))
      as Hm.
    { subst m. rewrite main_eq. cbn zeta. fold r. now rewrite Hout. }
    split; [exact Hin|]. split; [exact Hm|]. split; [discriminate|].
    rewrite Hm. cbn [evs]. unfold releases, attempts.
    rewrite !collect_app. cbn [collect released creation_kind].
    rewrite !app_nil_r. split; assumption.
  - intros Hout. split; [|reflexivity].
    subst m. rewrite main_eq. cbn zeta. fold r. now rewrite Hout.
Qed.

(** Device creation fails after the instance and the diagnostics channel
    exist: both are still held when main returns 1. *)
Lemma C8_bootstrap_errors_witness :
  let host := with_results VK_SUCCESS VK_SUCCESS (-3) sample_host in
  let m := main host true 10 blank in
  out m = Ret 1
  /\ acquisitions (evs m) = [RGlfw; RWindow 5; RInstance 7; RMessenger 9]
  /\ releases (evs m) = []
  /\ last (evs m) glfwInit_ev = cerr_ev "failed to create logical device!".
Proof.
  cbn zeta.
  destruct (C8_bootstrap_errors_are_fatal
              (with_results VK_SUCCESS VK_SUCCESS (-3) sample_host)
              true 10 blank) as [Hfail _].
  destruct (Hfail DeviceCreationFailed eq_refl) as (_ & Hm & _ & Hrel & _).
  split; [rewrite Hm; reflexivity|].
  split; [reflexivity|]. split; [exact Hrel|reflexivity].
Defined.

(** Each of the six errors does occur; a clean shutdown returns 0. *)
Example every_bootstrap_error_occurs :
  out (run (with_layers [] sample_host) true 10
         (HelloTriangleApplication blank)) = Throw ConfigurationError
  /\ out (run (with_results (-1) VK_SUCCESS VK_SUCCESS sample_host) true 10
            (HelloTriangleApplication blank)) = Throw InstanceCreationFailed
  /\ out (run (with_procAddr (fun _ _ => false) sample_host) true 10
            (HelloTriangleApplication blank)) = Throw ExtensionUnavailable
  /\ out (run (with_devices [] sample_host) true 10
            (HelloTriangleApplication blank)) = Throw NoDeviceFound
  /\ out (run (with_devices [11] sample_host) true 10
            (HelloTriangleApplication blank)) = Throw NoSuitableDevice
  /\ out (run (with_results VK_SUCCESS VK_SUCCESS (-3) sample_host) true 10
            (HelloTriangleApplication blank)) = Throw DeviceCreationFailed
  /\ out (main sample_host true 10 blank) = Ret 0
  /\ out (main sample_host false 10 blank) = Ret 0.
Proof. repeat split. Qed.

(* ================================================================== *)
(** ** Rules for what a computation emits, throws and keeps *)

Section Rules.

Context {A B : Type}.
Variable P : Event -> Prop.
Variable Q : exn -> Prop.

Lemma emits_ret (a : A) : emits P (ret a).
Proof. intros s. constructor. Qed.

Lemma emits_get (f : App -> A) : emits P (get f).
Proof. intros s. constructor. Qed.

Lemma emits_modify (f : App -> App) : emits P (modify f).
Proof. intros s. constructor. Qed.

Lemma emits_throw (e : exn) : emits P (@throw A e).
Proof. intros s. constructor. Qed.

Lemma emits_timeout : emits P (@timeout A).
Proof. intros s. constructor. Qed.

Lemma emits_emit (e : Event) : P e -> emits P (emit e).
Proof. intros H s. repeat constructor. exact H. Qed.

Lemma emits_bind (m : M A) (f : A -> M B) :
  emits P m -> (forall a, emits P (f a)) -> emits P (bind m f).
Proof.
  intros Hm Hf s. unfold bind. specialize (Hm s).
  destruct (out (m s)); cbn [evs]; try exact Hm.
  apply Forall_app. split; [exact Hm | apply Hf].
Qed.

Lemma throws_ret (a : A) : throws Q (ret a).
Proof. intros s e H. discriminate H. Qed.

Lemma throws_get (f : App -> A) : throws Q (get f).
Proof. intros s e H. discriminate H. Qed.

Lemma throws_modify (f : App -> App) : throws Q (modify f).
Proof. intros s e H. discriminate H. Qed.

Lemma throws_emit (ev : Event) : throws Q (emit ev).
Proof. intros s e H. discriminate H. Qed.

Lemma throws_timeout : throws Q (@timeout A).
Proof. intros s e H. discriminate H. Qed.

Lemma throws_throw (e : exn) : Q e -> throws Q (@throw A e).
Proof. intros H s e' He. cbn in He. now inversion He; subst. Qed.

Lemma throws_bind (m : M A) (f : A -> M B) :
  throws Q m -> (forall a, throws Q (f a)) -> throws Q (bind m f).
Proof.
  intros Hm Hf s e. unfold bind. specialize (Hm s).
  destruct (out (m s)) as [a|e'|]; cbn [out]; intros H.
  - exact (Hf a _ e H).
  - inversion H; subst. now apply Hm.
  - discriminate H.
Qed.

End Rules.

Section KeepRules.

Context {A B C : Type}.
Variable f : App -> C.

Lemma keeps_ret (a : A) : keeps f (ret a).
Proof. intros s. reflexivity. Qed.

Lemma keeps_get (g : App -> A) : keeps f (get g).
Proof. intros s. reflexivity. Qed.

Lemma keeps_emit (e : Event) : keeps f (emit e).
Proof. intros s. reflexivity. Qed.

Lemma keeps_throw (e : exn) : keeps f (@throw A e).
Proof. intros s. reflexivity. Qed.

Lemma keeps_timeout : keeps f (@timeout A).
Proof. intros s. reflexivity. Qed.

Lemma keeps_modify (g : App -> App) :
  (forall s, f (g s) = f s) -> keeps f (modify g).
Proof. intros H s. apply H. Qed.

Lemma keeps_bind (m : M A) (k : A -> M B) :
  keeps f m -> (forall a, keeps f (k a)) -> keeps f (bind m k).
Proof.
  intros Hm Hk s. unfold bind. specialize (Hm s).
  destruct (out (m s)) as [a| |]; cbn [st]; try exact Hm.
  now rewrite Hk.
Qed.

End KeepRules.

(** Walks down a computation built from the monad's operations. *)
Ltac walk :=
  repeat (intros; cbv beta zeta;
          match goal with
          | |- emits _ (bind _ _) => apply emits_bind
          | |- emits _ (ret _) => apply emits_ret
          | |- emits _ (get _) => apply emits_get
          | |- emits _ (modify _) => apply emits_modify
          | |- emits _ (throw _) => apply emits_throw
          | |- emits _ timeout => apply emits_timeout
          | |- emits _ (emit _) => apply emits_emit; reflexivity
          | |- emits _ (value ?o) => destruct o; cbn [value]
          | |- throws _ (bind _ _) => apply throws_bind
          | |- throws _ (ret _) => apply throws_ret
          | |- throws _ (get _) => apply throws_get
          | |- throws _ (modify _) => apply throws_modify
          | |- throws _ (emit _) => apply throws_emit
          | |- throws _ timeout => apply throws_timeout
          | |- throws _ (throw _) => apply throws_throw; reflexivity
          | |- throws _ (value ?o) => destruct o; cbn [value]
          | |- keeps _ (bind _ _) => apply keeps_bind
          | |- keeps _ (ret _) => apply keeps_ret
          | |- keeps _ (get _) => apply keeps_get
          | |- keeps _ (emit _) => apply keeps_emit
          | |- keeps _ (throw _) => apply keeps_throw
          | |- keeps _ timeout => apply keeps_timeout
          | |- keeps _ (modify _) => apply keeps_modify; reflexivity
          | |- keeps _ (value ?o) => destruct o; cbn [value]
          | |- only _ _ => split
          | |- emits _ (if ?c then _ else _) => destruct c
          | |- throws _ (if ?c then _ else _) => destruct c
          | |- keeps _ (if ?c then _ else _) => destruct c
          end).

Ltac by_only H := intros; first [exact (proj1 H) | exact (proj2 H)].

(* ================================================================== *)
(** ** Order of the stages *)

Lemma ordered_app (b : nat) (l1 l2 : list nat) :
  ordered l1 -> ordered l2 ->
  Forall (fun x => (x <= b)%nat) l1 -> Forall (fun y => (b <= y)%nat) l2 ->
  ordered (l1 ++ l2).
Proof.
  intros H1 H2 Hle Hge. induction l1 as [|x l1 IH]; [exact H2|].
  cbn [app ordered] in *. destruct H1 as [Hx H1].
  inversion Hle as [|? ? Hxb Hle']; subst. split.
  - apply Forall_app. split; [exact Hx|].
    eapply Forall_impl; [|exact Hge]. cbn. intros y Hy. lia.
  - now apply IH.
Qed.

Lemma ordered_const (k : nat) (l : list nat) :
  Forall (fun x => x = k) l -> ordered l.
Proof.
  induction l as [|x l IH]; intros H; [exact I|].
  inversion H as [|? ? Hx Hl]; subst. split; [|now apply IH].
  eapply Forall_impl; [|exact Hl]. cbn. intros y ->. lia.
Qed.

Lemma only_staged {A} (k : nat) (m : M A) : only k m -> staged k k m.
Proof.
  intros [He Ht] s. specialize (He s). split; [|split].
  - apply (ordered_const k). apply Forall_map. exact He.
  - eapply Forall_impl; [|exact He]. cbn. intros e ->. lia.
  - intros e Hout. rewrite (Ht s e Hout). split; [lia|].
    eapply Forall_impl; [|exact He]. cbn. intros ev ->. lia.
Qed.

Lemma staged_bind {A B} (a b b' c : nat) (m : M A) (f : A -> M B) :
  (a <= b)%nat -> (b <= b')%nat -> (b' <= c)%nat ->
  staged a b m -> (forall x, staged b' c (f x)) -> staged a c (bind m f).
Proof.
  intros Hab Hbb Hbc Hm Hf s. destruct (Hm s) as (Ho & Hr & Ht). unfold bind.
  assert (Forall (fun e => (a <= phase e <= c)%nat) (evs (m s))) as Hr1.
  { eapply Forall_impl; [|exact Hr]. cbn. intros e He. lia. }
  destruct (out (m s)) as [x|e|] eqn:Hout; cbn [out evs].
  - destruct (Hf x (st (m s))) as (Ho' & Hr' & Ht'). split; [|split].
    + rewrite map_app. apply (ordered_app b); try assumption.
      * apply Forall_map. eapply Forall_impl; [|exact Hr].
        cbn. intros e He. lia.
      * apply Forall_map. eapply Forall_impl; [|exact Hr'].
        cbn. intros e He. lia.
    + apply Forall_app. split; [exact Hr1|].
      eapply Forall_impl; [|exact Hr']. cbn. intros e He. lia.
    + intros e He. destruct (Ht' e He) as [Hp Hall]. split; [lia|].
      apply Forall_app. split; [|exact Hall].
      eapply Forall_impl; [|exact Hr]. cbn. intros ev Hev. lia.
  - split; [exact Ho|]. split; [exact Hr1|].
    intros e' He'. inversion He'; subst e'.
    destruct (Ht e eq_refl) as [Hp Hall]. split; [lia | exact Hall].
  - split; [exact Ho|]. split; [exact Hr1|]. intros e He. discriminate He.
Qed.

Lemma only_initWindow host : only 0 (initWindow host).
Proof. unfold initWindow. walk. Qed.

Lemma only_find_layer name avail : only 1 (find_layer name avail).
Proof.
  induction avail as [|lp rest [IHe IHt]]; cbn [find_layer]; walk;
    assumption.
Qed.

Lemma only_layers_loop layers avail : only 1 (layers_loop layers avail).
Proof.
  induction layers as [|name rest [IHe IHt]]; cbn [layers_loop]; walk;
    try assumption; by_only (only_find_layer name avail).
Qed.

Lemma only_createInstance host enable : only 1 (createInstance host enable).
Proof.
  unfold createInstance, checkValidationLayerSupport, checkLayerSupport,
    getRequiredExtensions.
  walk; by_only (only_layers_loop validationLayers (h_layers host)).
Qed.

Lemma only_setupDebugMessenger host enable :
  only 2 (setupDebugMessenger host enable).
Proof.
  unfold setupDebugMessenger, CreateDebugUtilsMessengerEXT. walk.
Qed.

Lemma only_findQueueFamilies host dev : only 3 (findQueueFamilies host dev).
Proof. unfold findQueueFamilies. walk. Qed.

Lemma only_pick_loop host devs : only 3 (pick_loop host devs).
Proof.
  induction devs as [|d devs [IHe IHt]]; cbn [pick_loop];
    unfold isDeviceSuitable; walk;
    try assumption; by_only (only_findQueueFamilies host d).
Qed.

Lemma only_pickPhysicalDevice host : only 3 (pickPhysicalDevice host).
Proof.
  unfold pickPhysicalDevice. walk; by_only (only_pick_loop host (h_devices host)).
Qed.

Lemma staged_createLogicalDevice host enable :
  staged 3 4 (createLogicalDevice host enable).
Proof.
  unfold createLogicalDevice.
  apply (staged_bind 3 3 3 4); try lia.
  { apply only_staged. walk. }
  intros pd.
  apply (staged_bind 3 3 4 4); try lia.
  { apply only_staged. apply only_findQueueFamilies. }
  intros indices. apply only_staged. walk.
Qed.

Lemma only_mainLoop_from host fuel : forall n, only 5 (mainLoop_from host fuel n).
Proof.
  induction fuel as [|fuel IH]; intros n; cbn [mainLoop_from]; walk;
    by_only (IH (S n)).
Qed.

Lemma only_cleanup host enable : only 6 (cleanup host enable).
Proof. unfold cleanup, DestroyDebugUtilsMessengerEXT. walk. Qed.

Lemma staged_initVulkan host enable : staged 1 4 (initVulkan host enable).
Proof.
  unfold initVulkan.
  apply (staged_bind 1 1 2 4); try lia.
  { apply only_staged, only_createInstance. }
  intros _. apply (staged_bind 2 2 3 4); try lia.
  { apply only_staged, only_setupDebugMessenger. }
  intros _. apply (staged_bind 3 3 3 4); try lia.
  { apply only_staged, only_pickPhysicalDevice. }
  intros _. apply staged_createLogicalDevice.
Qed.

Lemma staged_run host enable fuel : staged 0 6 (run host enable fuel).
Proof.
  unfold run.
  apply (staged_bind 0 0 1 6); try lia.
  { apply only_staged, only_initWindow. }
  intros _. apply (staged_bind 1 4 5 6); try lia.
  { apply staged_initVulkan. }
  intros _. apply (staged_bind 5 5 6 6); try lia.
  { apply only_staged, only_mainLoop_from. }
  intros _. apply only_staged, only_cleanup.
Qed.

(** X11.  In every run of [main] the calls go through the stages in the
    order window, instance, diagnostics channel, device selection, logical
    device, idle loop, teardown, error report: no stage is entered twice
    and none is entered after a later one. *)
Theorem X11_stages_in_order :
  forall (host : Host) (enable : bool) (fuel : nat) (indeterminate : App),
    ordered (map phase (evs (main host enable fuel indeterminate))).
Proof.
  intros host enable fuel ind. rewrite main_eq. cbn zeta.
  destruct (staged_run host enable fuel (HelloTriangleApplication ind))
    as (Ho & Hr & _).
  destruct (out (run host enable fuel (HelloTriangleApplication ind)));
    cbn [evs]; try exact Ho.
  rewrite map_app. apply (ordered_app 6); try assumption.
  - cbn. split; constructor.
  - apply Forall_map. eapply Forall_impl; [|exact Hr]. cbn. intros ev H. lia.
  - repeat constructor.
Qed.

(** X12.  When [run] throws, every call made so far belongs to the stage
    that threw or to an earlier one.  In particular, when the diagnostics
    channel cannot be set up, no physical device is enumerated or queried
    and no logical device is requested. *)
Theorem X12_nothing_after_the_failing_stage :
  forall (host : Host) (enable : bool) (fuel : nat) (s : App) (e : exn),
    out (run host enable fuel s) = Throw e ->
    Forall (fun ev => (phase ev <= exn_phase e)%nat)
           (evs (run host enable fuel s))
    /\ (e = ExtensionUnavailable ->
        (forall inst b,
            ~ In (vkEnumeratePhysicalDevices_ev inst b)
                 (evs (run host enable fuel s)))
        /\ (forall pd b,
              ~ In (vkGetPhysicalDeviceQueueFamilyProperties_ev pd b)
                   (evs (run host enable fuel s)))
        /\ (forall pd ci r h,
              ~ In (vkCreateDevice_ev pd ci r h)
                   (evs (run host enable fuel s)))).
Proof.
  intros host enable fuel s e Hout.
  destruct (staged_run host enable fuel s) as (_ & _ & Ht).
  destruct (Ht e Hout) as [_ Hall]. split; [exact Hall|].
  intros ->. rewrite Forall_forall in Hall.
  repeat split; intros; intros Hin; apply Hall in Hin; cbn in Hin; lia.
Qed.

Lemma X12_failing_stage_witness :
  out (run (with_procAddr (fun _ _ => false) sample_host) true 10
         (HelloTriangleApplication blank))
    = Throw ExtensionUnavailable
  /\ ~ In (vkEnumeratePhysicalDevices_ev 7 false)
          (evs (run (with_procAddr (fun _ _ => false) sample_host) true 10
                  (HelloTriangleApplication blank))).
Proof.
  split; [reflexivity|].
  destruct (X12_nothing_after_the_failing_stage
              (with_procAddr (fun _ _ => false) sample_host) true 10
              (HelloTriangleApplication blank) ExtensionUnavailable eq_refl)
    as [_ H].
  exact (proj1 (H eq_refl) 7 false).
Defined.

(* ================================================================== *)
(** ** The release build *)

Lemma emits_impl {A} (P P' : Event -> Prop) (m : M A) :
  (forall e, P e -> P' e) -> emits P m -> emits P' m.
Proof. intros H Hm s. eapply Forall_impl; [exact H | apply Hm]. Qed.

Lemma phase_quiet (k : nat) :
  k <> 1%nat -> k <> 2%nat -> k <> 6%nat ->
  forall e, phase e = k -> quiet e.
Proof.
  intros H1 H2 H6 e Hp. destruct e; try reflexivity; cbn in Hp; try lia.
  destruct (String.eqb name create_name); lia.
Qed.

Lemma quiet_run host fuel : emits quiet (run host false fuel).
Proof.
  unfold run, initVulkan.
  apply emits_bind; [|intros _; apply emits_bind; [|intros _]].
  - apply (emits_impl (fun e => phase e = 0%nat));
      [apply phase_quiet; lia | apply (proj1 (only_initWindow host))].
  - apply emits_bind; [|intros _; apply emits_bind; [|intros _]].
    + unfold createInstance, getRequiredExtensions. cbv beta iota zeta. walk.
    + unfold setupDebugMessenger. cbn [negb]. walk.
    + apply emits_bind; [|intros _].
      * apply (emits_impl (fun e => phase e = 3%nat));
          [apply phase_quiet; lia
          | apply (proj1 (only_pickPhysicalDevice host))].
      * unfold createLogicalDevice.
        apply emits_bind; [walk|intros pd].
        apply emits_bind; [|walk].
        apply (emits_impl (fun e => phase e = 3%nat));
          [apply phase_quiet; lia
          | apply (proj1 (only_findQueueFamilies host pd))].
  - apply emits_bind; [|intros _].
    + apply (emits_impl (fun e => phase e = 5%nat));
        [apply phase_quiet; lia
        | apply (proj1 (only_mainLoop_from host fuel O))].
    + unfold cleanup. cbv beta iota zeta. walk.
Qed.

Lemma keeps_pick_loop {C} (f : App -> C) host devs :
  (forall v s, f (set_physicalDevice v s) = f s) ->
  keeps f (pick_loop host devs).
Proof.
  intros Hf. induction devs as [|d devs IH]; cbn [pick_loop];
    unfold isDeviceSuitable, findQueueFamilies; walk; try exact IH.
  apply keeps_modify. apply Hf.
Qed.

Lemma keeps_pickPhysicalDevice {C} (f : App -> C) host :
  (forall v s, f (set_physicalDevice v s) = f s) ->
  keeps f (pickPhysicalDevice host).
Proof.
  intros Hf. unfold pickPhysicalDevice. walk.
  intros. now apply keeps_pick_loop.
Qed.

Lemma keeps_mainLoop_from {C} (f : App -> C) host fuel :
  forall n, keeps f (mainLoop_from host fuel n).
Proof.
  induction fuel as [|fuel IH]; intros n; cbn [mainLoop_from]; walk.
  intros. apply IH.
Qed.

Lemma keeps_messenger_release host fuel :
  keeps debugMessenger (run host false fuel).
Proof.
  unfold run, initVulkan.
  apply keeps_bind; [|intros _; apply keeps_bind; [|intros _]].
  - unfold initWindow. walk.
  - apply keeps_bind; [|intros _; apply keeps_bind; [|intros _]].
    + unfold createInstance, getRequiredExtensions. cbv beta iota zeta. walk.
    + unfold setupDebugMessenger. cbn [negb]. walk.
    + apply keeps_bind; [|intros _].
      * apply keeps_pickPhysicalDevice. reflexivity.
      * unfold createLogicalDevice, findQueueFamilies. walk.
  - apply keeps_bind; [|intros _].
    + apply keeps_mainLoop_from.
    + unfold cleanup. cbv beta iota zeta. walk.
Qed.

(** X14.  A release build (NDEBUG) never touches the diagnostics
    machinery: whatever the host answers, [main] enumerates no layer,
    compares no layer name, resolves no entry point and creates or
    destroys no messenger, and the debugMessenger member is never
    written. *)
Theorem X14_release_build_has_no_diagnostics :
  forall (host : Host) (fuel : nat) (indeterminate : App),
    Forall (fun e => diagnostics_event e = false)
           (evs (main host false fuel indeterminate))
    /\ debugMessenger (st (main host false fuel indeterminate))
       = debugMessenger indeterminate.
Proof.
  intros host fuel ind. rewrite main_eq. cbn zeta.
  pose proof (quiet_run host fuel (HelloTriangleApplication ind)) as Hq.
  pose proof (keeps_messenger_release host fuel
                (HelloTriangleApplication ind)) as Hk.
  cbn [HelloTriangleApplication debugMessenger set_physicalDevice] in Hk.
  destruct (out (run host false fuel (HelloTriangleApplication ind)));
    cbn [evs st]; (split; [|exact Hk]); try exact Hq.
  apply Forall_app. split; [exact Hq|]. repeat constructor.
Qed.

(* ================================================================== *)
(** ** The diagnostics channel *)

(** X1.  In a release build setupDebugMessenger does nothing.  In a debug
    build it returns exactly when the loader resolves the create entry
    point and the resolved function answers VK_SUCCESS; otherwise it
    throws.  With the entry point unresolved the look-up is its only call:
    no create function is called and the object is left as it was.  With
    the entry point resolved the function is called once, on the address
    of the debugMessenger member, and the member afterwards holds what
    the function left there, whether it succeeded or not; nothing else
    in the object changes. *)
Theorem X1_setupDebugMessenger_outcomes :
  forall (host : Host) (s : App),
    let inst := instance s in
    let pci := populateDebugMessengerCreateInfo in
    let rh := h_createMessenger host inst pci in
    let r := setupDebugMessenger host true s in
    setupDebugMessenger host false s = mkRes (Ret tt) s []
    /\ (out r = Ret tt \/ out r = Throw ExtensionUnavailable)
    /\ (out r = Ret tt <->
        h_procAddr host inst create_name = true /\ fst rh = VK_SUCCESS)
    /\ (h_procAddr host inst create_name = false ->
        r = mkRes (Throw ExtensionUnavailable) s
              [vkGetInstanceProcAddr_ev inst create_name])
    /\ (h_procAddr host inst create_name = true ->
        st r = set_debugMessenger (snd rh) s
        /\ evs r = [vkGetInstanceProcAddr_ev inst create_name;
                    PFN_vkCreateDebugUtilsMessengerEXT_ev
                      inst pci (fst rh) (snd rh)]).
Proof.
  intros host s inst pci rh r. split; [reflexivity|].
  subst r. rewrite (setupDebugMessenger_eq host true s). cbn [negb].
  cbn zeta. fold inst pci rh.
  destruct (h_procAddr host inst create_name).
  - destruct (fst rh =? VK_SUCCESS) eqn:Hr; cbn [out st evs].
    + apply Z.eqb_eq in Hr.
      repeat split; auto; discriminate.
    + apply Z.eqb_neq in Hr.
      repeat split; auto; try discriminate; intros H;
        try discriminate H; destruct H; contradiction.
  - cbn [out st evs].
    repeat split; auto; try discriminate; intros H;
      try discriminate H; destruct H; discriminate.
Qed.

Lemma X1_setupDebugMessenger_witness :
  out (setupDebugMessenger sample_host true blank) = Ret tt
  /\ st (setupDebugMessenger sample_host true blank)
     = set_debugMessenger 9 blank
  /\ setupDebugMessenger (with_procAddr (fun _ _ => false) sample_host)
       true blank
     = mkRes (Throw ExtensionUnavailable) blank
         [vkGetInstanceProcAddr_ev 0 create_name]
  /\ st (setupDebugMessenger
           (with_results VK_SUCCESS (-7) VK_SUCCESS sample_host) true blank)
     = set_debugMessenger 9 blank.
Proof.
  destruct (X1_setupDebugMessenger_outcomes sample_host blank)
    as (_ & _ & Hiff & _ & Hyes).
  destruct (X1_setupDebugMessenger_outcomes
              (with_procAddr (fun _ _ => false) sample_host) blank)
    as (_ & _ & _ & Hno & _).
  destruct (X1_setupDebugMessenger_outcomes
              (with_results VK_SUCCESS (-7) VK_SUCCESS sample_host) blank)
    as (_ & _ & _ & _ & Hbad).
  cbn zeta in *.
  split; [apply Hiff; split; reflexivity|].
  split; [exact (proj1 (Hyes eq_refl))|].
  split; [exact (Hno eq_refl) | exact (proj1 (Hbad eq_refl))].
Defined.

(* ================================================================== *)
(** ** The idle loop *)

Lemma mainLoop_from_exact host k : forall fuel n s,
  (forall j, (j < k)%nat -> h_shouldClose host (n + j) = false) ->
  h_shouldClose host (n + k) = true ->
  (k < fuel)%nat ->
  mainLoop_from host fuel n s
  = mkRes (Ret tt) s (idle_events (window s) k).
Proof.
  induction k as [|k IH]; intros fuel n s Hbefore Hat Hfuel;
    (destruct fuel as [|fuel]; [lia|]);
    cbn [mainLoop_from]; rewrite step_get, step_emit.
  - rewrite Nat.add_0_r in Hat. rewrite Hat. reflexivity.
  - assert (h_shouldClose host n = false) as H0.
    { rewrite <- (Nat.add_0_r n). apply Hbefore. lia. }
    rewrite H0, step_emit.
    rewrite (IH fuel (S n) s); [reflexivity| |now rewrite Nat.add_succ_comm|lia].
    intros j Hj. rewrite Nat.add_succ_comm. apply Hbefore. lia.
Qed.

Lemma mainLoop_from_never host fuel : forall n s,
  (forall j, (j < fuel)%nat -> h_shouldClose host (n + j) = false) ->
  mainLoop_from host fuel n s = mkRes Timeout s (polls (window s) fuel).
Proof.
  induction fuel as [|fuel IH]; intros n s Hnever; cbn [mainLoop_from].
  - reflexivity.
  - rewrite step_get, step_emit.
    assert (h_shouldClose host n = false) as H0.
    { rewrite <- (Nat.add_0_r n). apply Hnever. lia. }
    rewrite H0, step_emit, (IH (S n) s); [reflexivity|].
    intros j Hj. rewrite Nat.add_succ_comm. apply Hnever. lia.
Qed.

Lemma close_within host fuel :
  (exists k, (k < fuel)%nat /\ first_close host k)
  \/ (forall j, (j < fuel)%nat -> h_shouldClose host j = false).
Proof.
  induction fuel as [|fuel [(k & Hk & Hc) | Hnone]].
  - right. intros j Hj. lia.
  - left. exists k. split; [lia | exact Hc].
  - destruct (h_shouldClose host fuel) eqn:E.
    + left. exists fuel. split; [lia|]. split; [exact E|].
      intros j Hj. now apply Hnone.
    + right. intros j Hj.
      destruct (Nat.eq_dec j fuel) as [->|Hne]; [exact E|].
      apply Hnone. lia.
Qed.

(** X2.  mainLoop returns exactly when the window library reports the
    close signal within the fuel; it has then asked [k + 1] times and
    polled [k] times, [k] being the first query answered yes.  Otherwise
    it is still polling when the fuel is spent.  It never throws and never
    changes the object. *)
Theorem X2_mainLoop_returns_iff_closed :
  forall (host : Host) (fuel : nat) (s : App),
    st (mainLoop host fuel s) = s
    /\ (out (mainLoop host fuel s) = Ret tt <->
        exists k, (k < fuel)%nat /\ first_close host k)
    /\ (forall k, (k < fuel)%nat -> first_close host k ->
          evs (mainLoop host fuel s) = idle_events (window s) k)
    /\ ((forall j, (j < fuel)%nat -> h_shouldClose host j = false) ->
        out (mainLoop host fuel s) = Timeout
        /\ List.length (evs (mainLoop host fuel s)) = (2 * fuel)%nat).
Proof.
  intros host fuel s. unfold mainLoop.
  assert (forall k, (k < fuel)%nat -> first_close host k ->
            mainLoop_from host fuel 0 s
            = mkRes (Ret tt) s (idle_events (window s) k)) as Hexact.
  { intros k Hk [Hat Hbefore]. now apply mainLoop_from_exact. }
  assert ((forall j, (j < fuel)%nat -> h_shouldClose host j = false) ->
          mainLoop_from host fuel 0 s
          = mkRes Timeout s (polls (window s) fuel)) as Hnever.
  { intros H. now apply mainLoop_from_never. }
  split; [|split; [|split]].
  - destruct (close_within host fuel) as [(k & Hk & Hc) | Hnone].
    + now rewrite (Hexact k Hk Hc).
    + now rewrite (Hnever Hnone).
  - split.
    + intros Hout.
      destruct (close_within host fuel) as [Hex | Hnone]; [exact Hex|].
      rewrite (Hnever Hnone) in Hout. discriminate Hout.
    + intros (k & Hk & Hc). now rewrite (Hexact k Hk Hc).
  - intros k Hk Hc. now rewrite (Hexact k Hk Hc).
  - intros Hnone. rewrite (Hnever Hnone). cbn [out evs]. split; [reflexivity|].
    unfold polls. clear. induction fuel as [|fuel IH]; [reflexivity|].
    cbn [repeat List.concat app List.length]. rewrite IH. lia.
Qed.

Lemma X2_mainLoop_witness :
  evs (mainLoop sample_host 10 blank)
  = [glfwWindowShouldClose_ev 0; glfwPollEvents_ev;
     glfwWindowShouldClose_ev 0; glfwPollEvents_ev;
     glfwWindowShouldClose_ev 0]
  /\ out (mainLoop sample_host 2 blank) = Timeout.
Proof.
  destruct (X2_mainLoop_returns_iff_closed sample_host 10 blank)
    as (_ & _ & Hev & _).
  destruct (X2_mainLoop_returns_iff_closed sample_host 2 blank)
    as (_ & _ & _ & Hto).
  split.
  - apply (Hev 2%nat); [lia|]. split; [reflexivity|].
    intros j Hj. destruct j as [|[|j]]; [reflexivity|reflexivity|lia].
  - apply Hto. intros j Hj.
    destruct j as [|[|j]]; [reflexivity|reflexivity|lia].
Defined.

(* ================================================================== *)
(** ** Layer support: order and cost *)

Lemma existsb_perm {A} (p : A -> bool) (l l' : list A) :
  Permutation l l' -> existsb p l = existsb p l'.
Proof.
  intros H. induction H; cbn [existsb].
  - reflexivity.
  - now rewrite IHPermutation.
  - destruct (p x), (p y); reflexivity.
  - congruence.
Qed.

Lemma forallb_perm {A} (p : A -> bool) (l l' : list A) :
  Permutation l l' -> forallb p l = forallb p l'.
Proof.
  intros H. induction H; cbn [forallb].
  - reflexivity.
  - now rewrite IHPermutation.
  - destruct (p x), (p y); reflexivity.
  - congruence.
Qed.

Lemma forallb_pointwise {A} (p q : A -> bool) (l : list A) :
  (forall x, p x = q x) -> forallb p l = forallb q l.
Proof.
  intros H. induction l as [|x l IH]; [reflexivity|].
  cbn [forallb]. now rewrite H, IH.
Qed.

(** X3.  The answer of checkLayerSupport depends neither on the order in
    which the driver enumerates the installed layers nor on the order of
    the requested names. *)
Theorem X3_checkLayerSupport_order_independent :
  forall (host : Host) (L L' : list string)
         (layers' : list VkLayerProperties) (s : App),
    Permutation L L' ->
    Permutation (h_layers host) layers' ->
    out (checkLayerSupport (with_layers layers' host) L' s)
    = out (checkLayerSupport host L s).
Proof.
  intros host L L' layers' s HL Hav.
  rewrite !checkLayerSupport_eq. cbn [out h_layers with_layers].
  destruct (layers_loop_spec layers' L' s) as (-> & _ & _).
  destruct (layers_loop_spec (h_layers host) L s) as (-> & _ & _).
  f_equal. rewrite <- (forallb_perm _ L L' HL).
  apply forallb_pointwise. intros name. symmetry. now apply existsb_perm.
Qed.

Lemma X3_order_independent_witness :
  out (checkLayerSupport
         (with_layers [ {| layerName := "VK_LAYER_KHRONOS_validation" |};
                        {| layerName := "VK_LAYER_LUNARG_api_dump" |} ]
                      sample_host)
         validationLayers blank)
  = out (checkLayerSupport sample_host validationLayers blank).
Proof.
  apply X3_checkLayerSupport_order_independent.
  - apply Permutation_refl.
  - apply perm_swap.
Defined.

Lemma find_layer_cost name avail : forall s,
  (List.length (evs (find_layer name avail s)) <= List.length avail)%nat.
Proof.
  induction avail as [|lp rest IH]; intros s; cbn [find_layer].
  - cbn. lia.
  - rewrite step_emit. cbn [emitted evs app List.length].
    destruct (strcmp name (layerName lp) =? 0).
    + cbn. lia.
    + specialize (IH s). lia.
Qed.

Lemma layers_loop_cost avail layers : forall s,
  (List.length (evs (layers_loop layers avail s))
   <= List.length layers * List.length avail)%nat.
Proof.
  induction layers as [|name rest IH]; intros s; cbn [layers_loop].
  - cbn. lia.
  - destruct (find_layer_spec name avail s) as (Ho & Hs & _).
    rewrite (bind_Ret _ _ _ _ Ho), Hs. cbn [evs List.length].
    rewrite length_app.
    pose proof (find_layer_cost name avail s) as Hc.
    destruct (negb (existsb (matches name) avail)).
    + cbn. lia.
    + specialize (IH s). lia.
Qed.

(** X4.  checkLayerSupport first makes the two layer enumerations, the
    count and then the table, and every call after them is a comparison
    of a requested name with the name of an installed layer; there are at
    most as many comparisons as pairs of a requested name and an installed
    layer, so none at all when nothing is requested (answer true) or
    nothing is installed.  The object is never changed. *)
Theorem X4_checkLayerSupport_cost :
  forall (host : Host) (L : list string) (s : App),
    (exists t,
        evs (checkLayerSupport host L s)
        = [vkEnumerateInstanceLayerProperties_ev false;
           vkEnumerateInstanceLayerProperties_ev true] ++ t
        /\ Forall (fun e =>
                     exists name lp,
                       In name L /\ In lp (h_layers host)
                       /\ e = strcmp_ev name (layerName lp)) t
        /\ (List.length t
            <= List.length L * List.length (h_layers host))%nat)
    /\ st (checkLayerSupport host L s) = s
    /\ checkLayerSupport host [] s
       = mkRes (Ret true) s
           [vkEnumerateInstanceLayerProperties_ev false;
            vkEnumerateInstanceLayerProperties_ev true].
Proof.
  intros host L s. rewrite checkLayerSupport_eq. cbn [evs st].
  destruct (layers_loop_spec (h_layers host) L s) as (_ & Hs & He).
  split; [|split].
  - exists (evs (layers_loop L (h_layers host) s)).
    split; [reflexivity|]. split.
    + apply Forall_forall. exact He.
    + apply layers_loop_cost.
  - exact Hs.
  - reflexivity.
Qed.

(* ================================================================== *)
(** ** What createInstance asks for *)

(** X5.  Whatever the build and the host, createInstance makes at most
    one creating call, and when it makes none the object is left as it
    was.  When it calls vkCreateInstance, the request carries the
    extension list of getRequiredExtensions and every layer it names is
    installed on the host; the call is handed the address of the instance
    member, which afterwards holds what the driver left there, and
    createInstance returns if the driver answered VK_SUCCESS and throws
    otherwise. *)
Theorem X5_createInstance_request :
  forall (host : Host) (enable : bool) (s : App),
    let r := createInstance host enable s in
    (List.length (attempts (evs r)) <= 1)%nat
    /\ (attempts (evs r) = [] -> st r = s)
    /\ forall (ci : VkInstanceCreateInfo) (res : VkResult) (h : handle),
         In (vkCreateInstance_ev ci res h) (evs r) ->
         ci = instance_create_info host enable
         /\ (res, h) = h_vkCreateInstance host ci
         /\ out (getRequiredExtensions host enable s)
            = Ret (ici_enabledExtensionNames ci)
         /\ (forall name,
               In name (ici_enabledLayerNames ci) ->
               installed (h_layers host) name)
         /\ st r = set_instance h s
         /\ (res = VK_SUCCESS -> out r = Ret tt)
         /\ (res <> VK_SUCCESS -> out r = Throw InstanceCreationFailed).
Proof.
  intros host enable s r. subst r.
  assert (forall e, In e (instance_preamble host enable s) ->
            creation_call e = false) as Hpre.
  { intros e He. destruct (creation_call e) eqn:Hc; [|reflexivity].
    pose proof (lifecycle_In e _ He Hc) as Hl.
    rewrite instance_preamble_lifecycle in Hl. destruct Hl. }
  assert (attempts (instance_preamble host enable s) = []) as Hatt.
  { rewrite <- attempts_lifecycle, instance_preamble_lifecycle.
    reflexivity. }
  destruct (enable && negb (layers_supported host)) eqn:Hlay.
  { apply andb_prop in Hlay. destruct Hlay as [-> Hsup].
    apply negb_true_iff in Hsup.
    rewrite (createInstance_unavailable host s Hsup). cbn [evs st out].
    assert (lifecycle (check_events host s) = []) as Hl
      by apply check_events_lifecycle.
    split; [|split; [reflexivity|]].
    - rewrite <- attempts_lifecycle, Hl. cbn. lia.
    - intros ci res h Hin. exfalso.
      pose proof (lifecycle_In _ _ Hin eq_refl) as Hl'.
      rewrite Hl in Hl'. destruct Hl'. }
  pose proof (createInstance_available host enable s Hlay) as Heq.
  cbn zeta in Heq.
  set (rh := h_vkCreateInstance host (instance_create_info host enable)) in *.
  set (ev := vkCreateInstance_ev (instance_create_info host enable)
               (fst rh) (snd rh)) in *.
  assert (evs (createInstance host enable s)
          = instance_preamble host enable s ++ [ev]) as Hevs.
  { rewrite Heq. now destruct (fst rh =? VK_SUCCESS). }
  assert (st (createInstance host enable s) = set_instance (snd rh) s) as Hst.
  { rewrite Heq. now destruct (fst rh =? VK_SUCCESS). }
  rewrite Hevs, Hst.
  assert (attempts (instance_preamble host enable s ++ [ev]) <> []) as Hne.
  { unfold attempts in *. rewrite collect_app, Hatt. discriminate. }
  split; [|split; [intros H; contradiction|]].
  { unfold attempts in *. rewrite collect_app, Hatt. cbn. lia. }
  intros ci res h Hin.
  apply in_app_or in Hin. destruct Hin as [Hbad | [Hev | []]].
  { apply Hpre in Hbad. discriminate Hbad. }
  inversion Hev; subst ci res h. clear Hev.
  split; [reflexivity|]. split; [subst rh; now destruct (h_vkCreateInstance host _)|].
  split; [now rewrite getRequiredExtensions_eq|]. split; [|split; [reflexivity|]].
  - intros name Hname. cbn [ici_enabledLayerNames instance_create_info] in Hname.
    destruct enable; [|destruct Hname].
    cbn [andb] in Hlay. apply negb_false_iff in Hlay.
    unfold layers_supported in Hlay. rewrite forallb_installed in Hlay.
    now apply Hlay.
  - rewrite Heq. split; intros Hr.
    + rewrite Hr. reflexivity.
    + apply Z.eqb_neq in Hr. now rewrite Hr.
Qed.

Lemma X5_createInstance_witness :
  installed (h_layers sample_host) "VK_LAYER_KHRONOS_validation"
  /\ createInstance sample_host true blank
     = mkRes (Ret tt) (set_instance 7 blank)
         (evs (createInstance sample_host true blank)).
Proof.
  destruct (X5_createInstance_request sample_host true blank)
    as (_ & _ & H).
  destruct (H (instance_create_info sample_host true) VK_SUCCESS 7)
    as (_ & _ & _ & Hl & Hst & Hok & _).
  - cbn. do 5 right. left. reflexivity.
  - split; [apply Hl; left; reflexivity|].
    specialize (Hok eq_refl).
    destruct (createInstance sample_host true blank) as [o t e].
    cbn [out st evs] in *. now subst.
Defined.

(* ================================================================== *)
(** ** Suitability *)

(** X8.  isDeviceSuitable answers true exactly for a device that has at
    least one queue family with the graphics bit; it makes the two
    queue-family queries of that device and nothing else, and does not
    change the object. *)
Theorem X8_isDeviceSuitable_iff_graphics_family :
  forall (host : Host) (dev : handle) (s : App),
    exists b,
      isDeviceSuitable host dev s = mkRes (Ret b) s (queries dev)
      /\ (b = true <->
          exists q, In q (h_queueFamilies host dev)
                    /\ Z.testbit (queueFlags q) 0 = true).
Proof.
  intros host dev s. exists (suitable host dev).
  split; [apply isDeviceSuitable_eq|].
  unfold suitable. apply existsb_exists.
Qed.

(* ================================================================== *)
(** ** Logical device: the family index *)

Lemma unsuitable_index host dev :
  suitable host dev = false ->
  fst (fst (scanQueueFamilies (h_queueFamilies host dev) empty_indices 0))
  = empty_indices.
Proof.
  unfold suitable. rewrite <- (scan_complete_iff _ 0).
  destruct (fst (fst (scanQueueFamilies _ _ _))) as [[i|]]; cbn.
  - discriminate.
  - reflexivity.
Qed.

(** X6.  Called on a physical device without a graphics family,
    createLogicalDevice throws bad_optional_access at the first
    graphicsFamily.value(): it has made the two queue-family queries only,
    requests no logical device and leaves the object as it was. *)
Theorem X6_createLogicalDevice_without_graphics_family :
  forall (host : Host) (enable : bool) (s : App),
    suitable host (physicalDevice s) = false ->
    createLogicalDevice host enable s
    = mkRes (Throw bad_optional_access) s (queries (physicalDevice s)).
Proof.
  intros host enable s Hs. unfold createLogicalDevice.
  rewrite step_get.
  rewrite (step_Ret _ _ s _ _ _ (findQueueFamilies_eq host _ s)).
  rewrite (unsuitable_index host _ Hs).
  cbn [graphicsFamily empty_indices value]. rewrite step_throw.
  mdone. reflexivity.
Qed.

Lemma X6_without_graphics_family_witness :
  createLogicalDevice sample_host true (set_physicalDevice 11 blank)
  = mkRes (Throw bad_optional_access) (set_physicalDevice 11 blank)
          [vkGetPhysicalDeviceQueueFamilyProperties_ev 11 false;
           vkGetPhysicalDeviceQueueFamilyProperties_ev 11 true].
Proof.
  apply (X6_createLogicalDevice_without_graphics_family
           sample_host true (set_physicalDevice 11 blank)).
  reflexivity.
Defined.

(** X7.  On a device whose first graphics family is at position [i],
    createLogicalDevice asks vkCreateDevice for one queue of family [i];
    the call is handed the address of the device member, which
    afterwards holds what the driver left there.  When the driver answers
    VK_SUCCESS createLogicalDevice fetches queue 0 of that same family
    from the new device into graphicsQueue; on any other answer it throws
    DeviceCreationFailed, asks for no queue and leaves graphicsQueue and
    every member other than device as they were. *)
Theorem X7_createLogicalDevice_uses_first_graphics_family :
  forall (host : Host) (enable : bool) (s : App)
         (pre : list VkQueueFamilyProperties) (g : VkQueueFamilyProperties)
         (post : list VkQueueFamilyProperties),
    h_queueFamilies host (physicalDevice s) = pre ++ g :: post ->
    Z.of_nat (List.length (h_queueFamilies host (physicalDevice s)))
      <= UINT32_MAX ->
    no_graphics pre ->
    has_graphics g = true ->
    let pd := physicalDevice s in
    let i := Z.of_nat (List.length pre) in
    let ci := device_create_info enable i in
    let rh := h_vkCreateDevice host pd ci in
    dci_queueFamilyIndex ci = i
    /\ dci_queueCount ci = 1
    /\ (fst rh = VK_SUCCESS ->
        createLogicalDevice host enable s
        = mkRes (Ret tt)
            (set_graphicsQueue (h_deviceQueue host (snd rh) i 0)
               (set_device (snd rh) s))
            (queries pd
             ++ [vkCreateDevice_ev pd ci (fst rh) (snd rh);
                 vkGetDeviceQueue_ev (snd rh) i 0]))
    /\ (fst rh <> VK_SUCCESS ->
        createLogicalDevice host enable s
        = mkRes (Throw DeviceCreationFailed) (set_device (snd rh) s)
            (queries pd ++ [vkCreateDevice_ev pd ci (fst rh) (snd rh)])).
Proof.
  intros host enable s pre g post Htab Hlen Hpre Hg pd i ci rh.
  assert (suitable host pd = true) as Hs.
  { unfold suitable, pd. rewrite Htab, existsb_app. cbn [existsb].
    rewrite Hg. now rewrite orb_true_r. }
  destruct (createLogicalDevice_suitable host enable s Hs)
    as (j & Hfind & Heq).
  assert (j = i) as ->.
  { rewrite findQueueFamilies_eq in Hfind. cbn [out] in Hfind.
    rewrite Htab in Hfind, Hlen.
    rewrite (scan_first_match pre g post Hpre Hg Hlen) in Hfind.
    cbn [fst] in Hfind. now inversion Hfind. }
  cbn zeta in Heq. fold pd ci rh in Heq.
  split; [reflexivity|]. split; [reflexivity|]. split; intros Hr.
  - rewrite Heq, Hr. reflexivity.
  - apply Z.eqb_neq in Hr. rewrite Heq, Hr. reflexivity.
Qed.

Lemma X7_first_graphics_family_witness :
  createLogicalDevice sample_host true (set_physicalDevice 12 blank)
  = mkRes (Ret tt)
      (set_graphicsQueue 23 (set_device 21 (set_physicalDevice 12 blank)))
      [vkGetPhysicalDeviceQueueFamilyProperties_ev 12 false;
       vkGetPhysicalDeviceQueueFamilyProperties_ev 12 true;
       vkCreateDevice_ev 12 (device_create_info true 1) VK_SUCCESS 21;
       vkGetDeviceQueue_ev 21 1 0].
Proof.
  destruct (X7_createLogicalDevice_uses_first_graphics_family
              sample_host true (set_physicalDevice 12 blank)
              [compute_family] graphics_family [graphics_family])
    as (_ & _ & Hok & _).
  - reflexivity.
  - vm_compute. discriminate.
  - repeat constructor.
  - reflexivity.
  - apply Hok. reflexivity.
Defined.

(* ================================================================== *)
(** ** Selection: what it touches, and running it again *)

(** X9.  Whatever the object holds on entry and however it ends,
    pickPhysicalDevice changes no member other than physicalDevice, and
    physicalDevice is either left as it was or set to a device the driver
    enumerated and that passes the suitability check. *)
Theorem X9_pickPhysicalDevice_frame :
  forall (host : Host) (s : App),
    let s' := st (pickPhysicalDevice host s) in
    window s' = window s
    /\ instance s' = instance s
    /\ debugMessenger s' = debugMessenger s
    /\ device s' = device s
    /\ graphicsQueue s' = graphicsQueue s
    /\ (physicalDevice s' = physicalDevice s
        \/ In (physicalDevice s') (h_devices host)
           /\ suitable host (physicalDevice s') = true).
Proof.
  intros host s s'. subst s'.
  repeat (split; [now apply keeps_pickPhysicalDevice|]).
  destruct (devices_empty_or_not host) as [Hdevs|Hne].
  - rewrite pickPhysicalDevice_none by exact Hdevs. now left.
  - rewrite pickPhysicalDevice_some by exact Hne.
    destruct (first_split (suitable host) (h_devices host))
      as [Hnone | (pre & d & post & Hsplit & Hpre & Hd)].
    + rewrite (pick_loop_miss host (h_devices host) s Hnone).
      cbn [out st]. left.
      now destruct (physicalDevice s =? VK_NULL_HANDLE).
    + rewrite Hsplit.
      rewrite (pick_loop_hit host pre d post s Hpre Hd).
      cbn [out st physicalDevice set_physicalDevice]. right.
      destruct (d =? VK_NULL_HANDLE);
        cbn [st physicalDevice set_physicalDevice];
        (split; [apply in_elt | exact Hd]).
Qed.

Lemma pick_Ret_split host s :
  physicalDevice s = VK_NULL_HANDLE ->
  out (pickPhysicalDevice host s) = Ret tt ->
  exists pre d post,
    h_devices host = pre ++ d :: post
    /\ none_suitable host pre
    /\ suitable host d = true
    /\ d <> VK_NULL_HANDLE.
Proof.
  intros Hnull Hret.
  destruct (devices_empty_or_not host) as [Hdevs|Hne].
  - rewrite pickPhysicalDevice_none in Hret by exact Hdevs. discriminate Hret.
  - rewrite pickPhysicalDevice_some in Hret by exact Hne.
    destruct (first_split (suitable host) (h_devices host))
      as [Hnone | (pre & d & post & Hsplit & Hpre & Hd)].
    + rewrite (pick_loop_miss host (h_devices host) s Hnone) in Hret.
      cbn [out st] in Hret. rewrite Hnull in Hret. discriminate Hret.
    + exists pre, d, post. repeat split; try assumption.
      rewrite Hsplit in Hret.
      rewrite (pick_loop_hit host pre d post s Hpre Hd) in Hret.
      cbn [out st physicalDevice set_physicalDevice] in Hret.
      intros ->. discriminate Hret.
Qed.

(** X10.  Running pickPhysicalDevice again after it has succeeded changes
    nothing: it returns, makes the same calls and leaves the same device
    selected. *)
Theorem X10_pickPhysicalDevice_idempotent :
  forall (host : Host) (s : App),
    physicalDevice s = VK_NULL_HANDLE ->
    out (pickPhysicalDevice host s) = Ret tt ->
    pickPhysicalDevice host (st (pickPhysicalDevice host s))
    = pickPhysicalDevice host s.
Proof.
  intros host s Hnull Hret.
  destruct (pick_Ret_split host s Hnull Hret)
    as (pre & d & post & Hsplit & Hpre & Hd & Hdn).
  rewrite (pickPhysicalDevice_hit host s pre d post Hsplit Hpre Hd Hdn).
  cbn [st].
  now rewrite (pickPhysicalDevice_hit host _ pre d post Hsplit Hpre Hd Hdn).
Qed.

Lemma X10_idempotent_witness :
  pickPhysicalDevice sample_host (st (pickPhysicalDevice sample_host blank))
  = pickPhysicalDevice sample_host blank.
Proof.
  apply (X10_pickPhysicalDevice_idempotent sample_host blank); reflexivity.
Defined.

(* ================================================================== *)
(** ** What a successful bootstrap leaves in the object *)

(** X13.  When initVulkan returns on the freshly constructed object,
    every stage has succeeded and the members hold what the driver handed
    out: the instance of the one vkCreateInstance request, in a debug
    build the messenger created on that instance, an enumerated non-null
    physical device with a graphics family, the logical device created on
    it for that family, and queue 0 of that family; the window member is
    untouched. *)
Theorem X13_initVulkan_postcondition :
  forall (host : Host) (enable : bool) (s : App),
    physicalDevice s = VK_NULL_HANDLE ->
    out (initVulkan host enable s) = Ret tt ->
    let s' := st (initVulkan host enable s) in
    let ici := instance_create_info host enable in
    let pci := populateDebugMessengerCreateInfo in
    window s' = window s
    /\ h_vkCreateInstance host ici = (VK_SUCCESS, instance s')
    /\ (if enable
        then h_procAddr host (instance s') create_name = true
             /\ h_createMessenger host (instance s') pci
                = (VK_SUCCESS, debugMessenger s')
        else debugMessenger s' = debugMessenger s)
    /\ In (physicalDevice s') (h_devices host)
    /\ physicalDevice s' <> VK_NULL_HANDLE
    /\ exists i,
         out (findQueueFamilies host (physicalDevice s') s')
           = Ret {| graphicsFamily := Some i |}
         /\ h_vkCreateDevice host (physicalDevice s')
              (device_create_info enable i)
            = (VK_SUCCESS, device s')
         /\ graphicsQueue s' = h_deviceQueue host (device s') i 0.
Proof.
  intros host enable s Hnull Hout. cbn zeta.
  remember (initVulkan host enable s) as r eqn:Hr.
  unfold initVulkan in Hr.
  (* createInstance *)
  destruct (enable && negb (layers_supported host)) eqn:Hlay.
  { apply andb_prop in Hlay. destruct Hlay as [-> Hsup].
    apply negb_true_iff in Hsup.
    rewrite (step_Throw _ _ s _ _ _ (createInstance_unavailable host s Hsup))
      in Hr.
    subst r. discriminate Hout. }
  pose proof (createInstance_available host enable s Hlay) as Hci.
  cbn zeta in Hci.
  set (ici := instance_create_info host enable) in *.
  destruct (h_vkCreateInstance host ici) as [ri hi]. cbn [fst snd] in Hci.
  destruct (ri =? VK_SUCCESS) eqn:Hri.
  2:{ rewrite (step_Throw _ _ s _ _ _ Hci) in Hr. subst r.
      discriminate Hout. }
  apply Z.eqb_eq in Hri. subst ri.
  rewrite (step_Ret _ _ s _ _ _ Hci) in Hr. clear Hci.
  (* setupDebugMessenger *)
  pose proof (setupDebugMessenger_eq host enable (set_instance hi s)) as Hdm.
  cbn zeta in Hdm. change (instance (set_instance hi s)) with hi in Hdm.
  set (pci := populateDebugMessengerCreateInfo) in *.
  assert (exists s3 t3,
             setupDebugMessenger host enable (set_instance hi s)
             = mkRes (Ret tt) s3 t3
             /\ window s3 = window s /\ instance s3 = hi
             /\ physicalDevice s3 = VK_NULL_HANDLE
             /\ device s3 = device s /\ graphicsQueue s3 = graphicsQueue s
             /\ (if enable
                 then h_procAddr host hi create_name = true
                      /\ h_createMessenger host hi pci
                         = (VK_SUCCESS, debugMessenger s3)
                 else debugMessenger s3 = debugMessenger s))
    as (s3 & t3 & Heq & Hw3 & Hi3 & Hp3 & Hd3 & Hg3 & Hm3).
  { destruct (out (setupDebugMessenger host enable (set_instance hi s)))
      as [[]|e|] eqn:Ho.
    - rewrite Hdm in Ho |- *. destruct enable; cbn [negb] in *.
      + destruct (h_procAddr host hi create_name); [|discriminate Ho].
        destruct (h_createMessenger host hi pci) as [rm hm].
        cbn [fst snd] in *.
        destruct (rm =? VK_SUCCESS) eqn:Hrm; [|discriminate Ho].
        apply Z.eqb_eq in Hrm. subst rm.
        do 2 eexists. split; [reflexivity|].
        repeat split; try reflexivity. exact Hnull.
      + do 2 eexists. split; [reflexivity|].
        repeat split; try reflexivity. exact Hnull.
    - rewrite (bind_Throw _ _ _ _ Ho) in Hr.
      rewrite Hr in Hout. discriminate Hout.
    - rewrite (bind_Timeout _ _ _ Ho) in Hr.
      rewrite Hr in Hout. discriminate Hout. }
  rewrite (step_Ret _ _ _ _ _ _ Heq) in Hr. clear Heq Hdm.
  (* pickPhysicalDevice *)
  destruct (out (pickPhysicalDevice host s3)) as [[]|e|] eqn:Hpo.
  2:{ rewrite (bind_Throw _ _ _ _ Hpo) in Hr. rewrite Hr in Hout.
      discriminate Hout. }
  2:{ rewrite (bind_Timeout _ _ _ Hpo) in Hr. rewrite Hr in Hout.
      discriminate Hout. }
  destruct (pickPhysicalDevice_Ret host s3 Hp3 Hpo)
    as (d & tp & Hpick & Hd & Hin & Hdn).
  rewrite (step_Ret _ _ _ _ _ _ Hpick) in Hr. clear Hpick Hpo.
  (* createLogicalDevice *)
  destruct (createLogicalDevice_suitable host enable
              (set_physicalDevice d s3) Hd) as (i & Hfind & Hcl).
  cbn zeta in Hcl.
  change (physicalDevice (set_physicalDevice d s3)) with d in Hcl.
  destruct (h_vkCreateDevice host d (device_create_info enable i))
    as [rd hd] eqn:Hcd.
  cbn [fst snd] in Hcl.
  destruct (rd =? VK_SUCCESS) eqn:Hrd.
  2:{ rewrite Hcl in Hr. rewrite Hr in Hout. discriminate Hout. }
  apply Z.eqb_eq in Hrd. subst rd.
  rewrite Hcl in Hr. subst r.
  cbn [emitted out st evs window instance debugMessenger physicalDevice
       device graphicsQueue set_graphicsQueue set_device set_physicalDevice].
  rewrite Hi3.
  split; [exact Hw3|]. split; [reflexivity|]. split; [exact Hm3|].
  split; [exact Hin|]. split; [exact Hdn|].
  exists i. split; [|split].
  - rewrite findQueueFamilies_eq in Hfind |- *. exact Hfind.
  - exact Hcd.
  - reflexivity.
Qed.

Lemma X13_initVulkan_witness :
  let s' := st (initVulkan sample_host true
                  (HelloTriangleApplication blank)) in
  physicalDevice s' = 12 /\ instance s' = 7 /\ device s' = 21
  /\ In (physicalDevice s') (h_devices sample_host).
Proof.
  destruct (X13_initVulkan_postcondition sample_host true
              (HelloTriangleApplication blank) eq_refl eq_refl)
    as (_ & _ & _ & Hin & _).
  cbn zeta. repeat split. exact Hin.
Defined.

(* ================================================================== *)
(** ** A run that succeeds *)

Lemma X15_run_returns_witness :
  out (run sample_host true 10 (HelloTriangleApplication blank)) = Ret tt.
Proof.
  apply (run_returns sample_host true 10 (HelloTriangleApplication blank)
           2 [11] 12 [13]).
  - reflexivity.
  - reflexivity.
  - reflexivity.
  - intros _ inst. split; reflexivity.
  - reflexivity.
  - repeat constructor.
  - reflexivity.
  - discriminate.
  - intros dci. reflexivity.
  - intros j Hj. destruct j as [|[|j]]; [reflexivity|reflexivity|lia].
  - reflexivity.
  - lia.
Defined.
